(** * Leaderboard data pipeline of [app.js]: CSV ingestion, projection,
      configuration and movement indicators.

    The development is a shallow embedding of the data-handling part of
    [src/app.js] (lines 5-232, and the refresh callback of lines 361-364)
    followed by the properties established about it.

    Conventions of the embedding.
    - A JavaScript string is represented by the bytes of its UTF-8 encoding
      ([string]).  Every string operation [app.js] uses is either a test
      against an ASCII character (comma, double quote, line feed, digits) or
      whitespace trimming; on well-formed UTF-8 both act on whole code points
      when performed on bytes.
    - A JavaScript number is [NaN] or an integer ([Z]).  Ranks, weeks and
      timestamps are integers; IEEE doubles represent every integer of
      magnitude up to 2^53 exactly, and on that range the embedding and the
      engine agree.
    - Module-level mutable state ([CONTESTANTS], [CONFIG]) and the console
      live in a [world] threaded through a state-and-exception monad; the
      network is an oracle from addresses to outcomes.  An [async] function
      is run to completion on the world it is given: what other tasks do
      while it is suspended at an [await] is outside the embedding. *)

From Stdlib Require Import String Ascii List ZArith Bool Lia.
From Stdlib Require Import Permutation Sorted.
From Stdlib Require Import DecimalString DecimalPos DecimalZ.
Import ListNotations.

Local Open Scope string_scope.
Local Open Scope Z_scope.

(** ** JavaScript primitives used by [app.js] *)

Module Js.

(** *** Characters *)

Definition LF : ascii := "010"%char.
Definition COMMA : ascii := ","%char.
Definition DQUOTE : ascii := "034"%char.

Definition bytes (l : list nat) : string :=
  string_of_list_ascii (map ascii_of_nat l).

(** *** Numbers and values *)

Inductive number : Type :=
| NaN
| Int (z : Z).

Inductive value : Type :=
| Null
| Undefined
| Str (s : string)
| Num (n : number).

Definition number_eqb (a b : number) : bool :=
  match a, b with
  | Int x, Int y => x =? y
  | _, _ => false
  end.

(** [Number::toString] on the integers (and [NaN]). *)
Definition number_to_string (n : number) : string :=
  match n with
  | NaN => "NaN"
  | Int z => NilZero.string_of_int (Z.to_int z)
  end.

(** [ToString]. *)
Definition ToString (v : value) : string :=
  match v with
  | Null => "null"
  | Undefined => "undefined"
  | Str s => s
  | Num n => number_to_string n
  end.

(** [ToBoolean]. *)
Definition truthy (v : value) : bool :=
  match v with
  | Null | Undefined => false
  | Str s => negb (s =? "")%string
  | Num NaN => false
  | Num (Int z) => negb (z =? 0)
  end.

(** [a || b] and [a && b]; [a || b] between two numbers. *)
Definition logical_or (a b : value) : value := if truthy a then a else b.
Definition logical_and (a b : value) : value := if truthy a then b else a.
Definition or_number (a b : number) : number :=
  if truthy (Num a) then a else b.

(** [a === b] for the primitive values above. *)
Definition strict_eq (a b : value) : bool :=
  match a, b with
  | Null, Null => true
  | Undefined, Undefined => true
  | Str s, Str t => (s =? t)%string
  | Num x, Num y => number_eqb x y
  | _, _ => false
  end.

(** [a - b], [a > b], [a < b], [Math.abs] on numbers. *)
Definition subtract (a b : number) : number :=
  match a, b with
  | Int x, Int y => Int (x - y)
  | _, _ => NaN
  end.

Definition gt0 (a : number) : bool :=
  match a with Int x => 0 <? x | NaN => false end.

Definition lt0 (a : number) : bool :=
  match a with Int x => x <? 0 | NaN => false end.

Definition Math_abs (a : number) : number :=
  match a with Int x => Int (Z.abs x) | NaN => NaN end.

(** [a <= b]: false as soon as one side is [NaN]. *)
Definition less_equal (a b : number) : bool :=
  match a, b with
  | Int x, Int y => x <=? y
  | _, _ => false
  end.

(** *** Whitespace and trimming

    [WhiteSpace] and [LineTerminator] code points, as UTF-8 byte sequences:
    TAB, LF, VT, FF, CR, SP, U+00A0, U+1680, U+2000..U+200A, U+2028, U+2029,
    U+202F, U+205F, U+3000, U+FEFF. *)
Definition white_space : list string :=
  map bytes
    [ [9]; [10]; [11]; [12]; [13]; [32];
      [194; 160];
      [225; 154; 128];
      [226; 128; 128]; [226; 128; 129]; [226; 128; 130]; [226; 128; 131];
      [226; 128; 132]; [226; 128; 133]; [226; 128; 134]; [226; 128; 135];
      [226; 128; 136]; [226; 128; 137]; [226; 128; 138];
      [226; 128; 168]; [226; 128; 169]; [226; 128; 175];
      [226; 129; 159];
      [227; 128; 128];
      [239; 187; 191] ]%nat.

Definition reverse (s : string) : string :=
  string_of_list_ascii (rev (list_ascii_of_string s)).

Fixpoint drop (n : nat) (s : string) : string :=
  match n, s with
  | O, _ => s
  | S n', EmptyString => EmptyString
  | S n', String _ r => drop n' r
  end.

(** Removes leading occurrences of the sequences of [tbl], at most [fuel]
    of them. *)
Fixpoint strip (fuel : nat) (tbl : list string) (s : string) : string :=
  match fuel with
  | O => s
  | S fuel' =>
      match find (fun p => prefix p s) tbl with
      | Some p => strip fuel' tbl (drop (String.length p) s)
      | None => s
      end
  end.

(** [String.prototype.trimStart], [trimEnd], [trim]. *)
Definition trimStart (s : string) : string :=
  strip (String.length s) white_space s.

Definition trimEnd (s : string) : string :=
  reverse (strip (String.length s) (map reverse white_space) (reverse s)).

Definition trim (s : string) : string := trimEnd (trimStart s).

(** *** [split], [replace] *)

(** [s.split(sep)] for a one-character separator. *)
Fixpoint split (sep : ascii) (s : string) : list string :=
  match s with
  | EmptyString => [EmptyString]
  | String c r =>
      if Ascii.eqb c sep then EmptyString :: split sep r
      else match split sep r with
           | [] => [String c EmptyString]
           | h :: t => String c h :: t
           end
  end.

(** [s.replace(/c/g, '')] for a one-character pattern. *)
Fixpoint remove_all (c : ascii) (s : string) : string :=
  match s with
  | EmptyString => EmptyString
  | String a r =>
      if Ascii.eqb a c then remove_all c r else String a (remove_all c r)
  end.

(** *** [parseInt(v, 10)] *)

Definition digit (c : ascii) : option Z :=
  let n := Z.of_nat (nat_of_ascii c) in
  if (48 <=? n) && (n <=? 57) then Some (n - 48) else None.

(** Longest prefix of decimal digits; [acc] is [None] until a digit has
    been read. *)
Fixpoint digits (s : string) (acc : option Z) : option Z :=
  match s with
  | EmptyString => acc
  | String c r =>
      match digit c with
      | Some d =>
          digits r (Some (10 * match acc with Some a => a | None => 0 end + d))
      | None => acc
      end
  end.

Definition parseInt (v : value) : number :=
  let inputString := trimStart (ToString v) in
  let '(sign, rest) :=
    match inputString with
    | String "-"%char r => (-1, r)
    | String "+"%char r => (1, r)
    | _ => (1, inputString)
    end in
  match digits rest None with
  | Some mathInt => Int (sign * mathInt)
  | None => NaN
  end.

(** *** Ordinary objects

    Own properties are kept in creation order.  Assigning to an existing key
    replaces its value in place.  Assigning a primitive to [__proto__]
    reaches the accessor of [Object.prototype] and creates no own
    property. *)
Definition object : Type := list (string * value).

Fixpoint has_key (o : object) (k : string) : bool :=
  match o with
  | [] => false
  | (k', _) :: o' => (k' =? k)%string || has_key o' k
  end.

Fixpoint replace (o : object) (k : string) (v : value) : object :=
  match o with
  | [] => []
  | (k', v') :: o' =>
      if (k' =? k)%string then (k', v) :: o' else (k', v') :: replace o' k v
  end.

(** [o[k] = v]. *)
Definition set (o : object) (k : string) (v : value) : object :=
  if (k =? "__proto__")%string then o
  else if has_key o k then replace o k v
  else (o ++ [(k, v)])%list.

(** [o[k]] for a key that [Object.prototype] does not define. *)
Fixpoint get (o : object) (k : string) : value :=
  match o with
  | [] => Undefined
  | (k', v) :: o' => if (k' =? k)%string then v else get o' k
  end.

(** Array indices: canonical numeric strings below 2^32 - 1. *)
Definition array_index (k : string) : option Z :=
  match digits k None with
  | Some n =>
      if (number_to_string (Int n) =? k)%string && (n <? 4294967295)
      then Some n else None
  | None => None
  end.

Fixpoint insert_index (p : Z * value) (l : list (Z * value))
  : list (Z * value) :=
  match l with
  | [] => [p]
  | q :: l' => if fst p <=? fst q then p :: l else q :: insert_index p l'
  end.

Definition index_properties (o : object) : list (Z * value) :=
  fold_right
    (fun kv acc =>
       match array_index (fst kv) with
       | Some n => insert_index (n, snd kv) acc
       | None => acc
       end) [] o.

Definition named_properties (o : object) : object :=
  filter (fun kv => match array_index (fst kv) with
                    | Some _ => false
                    | None => true
                    end) o.

(** [Object.values(o)]: array-index keys in ascending order first, the
    other keys in creation order after them. *)
Definition values (o : object) : list value :=
  (map snd (index_properties o) ++ map snd (named_properties o))%list.

(** The own property keys of [o], in creation order ([Object.keys(o)] lists
    the same keys, array indices first). *)
Definition keys (o : object) : list string := map fst o.

(** [a[i]] on an array of values. *)
Definition at_index (a : list value) (i : nat) : value :=
  nth i a Undefined.

(** *** [encodeURIComponent]

    Unreserved characters are kept; every other byte of the UTF-8 encoding
    becomes [%XX]. *)
Definition unreserved (c : ascii) : bool :=
  let n := nat_of_ascii c in
  ((65 <=? n) && (n <=? 90) || (97 <=? n) && (n <=? 122)
   || (48 <=? n) && (n <=? 57))%nat
  || existsb (Ascii.eqb c)
       ["-"; "_"; "."; "!"; "~"; "*"; "'"; "("; ")"]%char.

Definition hex_digit (n : nat) : ascii :=
  nth n ["0"; "1"; "2"; "3"; "4"; "5"; "6"; "7"; "8"; "9";
         "A"; "B"; "C"; "D"; "E"; "F"]%char "0"%char.

Fixpoint encodeURIComponent (s : string) : string :=
  match s with
  | EmptyString => EmptyString
  | String c r =>
      if unreserved c then String c (encodeURIComponent r)
      else
        let n := nat_of_ascii c in
        String "%" (String (hex_digit (n / 16)) (String (hex_digit (n mod 16))
          (encodeURIComponent r)))
  end.

End Js.

Import Js.

(** ** Completions, the world and the monad of [async] functions *)

Inductive completion (A : Type) : Type :=
| Normal (a : A)
| Throw (error : string).
Arguments Normal {A} a.
Arguments Throw {A} error.

(** What the network answers to a GET: the promise of [fetch] rejects, or
    it resolves and [response.text()] rejects, or the body arrives. *)
Inductive response : Type :=
| Rejected
| Unreadable
| Body (text : string).

Record contestant : Type := {
  codename : value;
  currentRank : number;
  previousRank : number;
  shamed : bool
}.

Record config : Type := {
  deadline : value;
  currentWeek : value
}.

(** [clock] is what [Date.now()] returns, [network] what a GET of an
    address yields, [requests] the addresses fetched so far (latest first),
    [console] the lines logged so far (latest first). *)
Record world : Type := {
  clock : Z;
  network : string -> response;
  requests : list string;
  console : list string;
  CONTESTANTS : list contestant;
  CONFIG : config
}.

(** [Date.now()]. *)
Definition Date_now (w : world) : Z := clock w.

Definition M (A : Type) : Type := world -> completion A * world.

Definition ret {A} (a : A) : M A := fun w => (Normal a, w).

Definition throw {A} (error : string) : M A := fun w => (Throw error, w).

Definition bind {A B} (c : M A) (k : A -> M B) : M B :=
  fun w =>
    match c w with
    | (Normal a, w') => k a w'
    | (Throw e, w') => (Throw e, w')
    end.

Definition try_catch {A} (body : M A) (handler : string -> M A) : M A :=
  fun w =>
    match body w with
    | (Normal a, w') => (Normal a, w')
    | (Throw e, w') => handler e w'
    end.

Notation "x <- c ;; k" := (bind c (fun x => k))
  (at level 61, c at next level, right associativity).
Notation "c ;; k" := (bind c (fun _ => k))
  (at level 61, right associativity).

Fixpoint forEach {A} (f : A -> M unit) (l : list A) : M unit :=
  match l with
  | [] => ret tt
  | x :: l' => f x ;; forEach f l'
  end.

Definition log_request (url : string) (w : world) : world :=
  {| clock := clock w; network := network w; requests := url :: requests w;
     console := console w; CONTESTANTS := CONTESTANTS w; CONFIG := CONFIG w |}.

Definition log_error (line : string) (w : world) : world :=
  {| clock := clock w; network := network w; requests := requests w;
     console := line :: console w; CONTESTANTS := CONTESTANTS w;
     CONFIG := CONFIG w |}.

Definition store_CONTESTANTS (l : list contestant) (w : world) : world :=
  {| clock := clock w; network := network w; requests := requests w;
     console := console w; CONTESTANTS := l; CONFIG := CONFIG w |}.

Definition store_CONFIG (c : config) (w : world) : world :=
  {| clock := clock w; network := network w; requests := requests w;
     console := console w; CONTESTANTS := CONTESTANTS w; CONFIG := c |}.

(** [await fetch(url)]. *)
Definition fetch (url : string) : M response :=
  fun w =>
    match network w url with
    | Rejected => (Throw "TypeError: Failed to fetch", log_request url w)
    | r => (Normal r, log_request url w)
    end.

(** [await response.text()]. *)
Definition text (r : response) : M string :=
  match r with
  | Body t => ret t
  | _ => throw "TypeError: Failed to read the response body"
  end.

(** [console.error(msg, error)]. *)
Definition console_error (msg error : string) : M unit :=
  fun w => (Normal tt, log_error (msg ++ " " ++ error) w).

Definition read_CONTESTANTS : M (list contestant) :=
  fun w => (Normal (CONTESTANTS w), w).

Definition write_CONTESTANTS (l : list contestant) : M unit :=
  fun w => (Normal tt, store_CONTESTANTS l w).

Definition read_CONFIG : M config :=
  fun w => (Normal (CONFIG w), w).

Definition write_CONFIG (c : config) : M unit :=
  fun w => (Normal tt, store_CONFIG c w).

(** ** [app.js], lines 5-27: configuration and module state *)

Module SHEETS_CONFIG.
Definition spreadsheetId : string :=
  "1htoeLmi-aczeAOJpHjf3hFnT5L26kUaGHukXX6l920g".
Definition leaderboardGid : string := "0".
Definition configGid : string := "136070622".
End SHEETS_CONFIG.

Definition SHEETS_BASE_URL : string :=
  "https://docs.google.com/spreadsheets/d/" ++ SHEETS_CONFIG.spreadsheetId
  ++ "/export?format=csv".

Definition CORS_PROXY : string := "https://api.codetabs.com/v1/proxy?quest=".

Section Script.

(** The value [Date.now()] had when the script was evaluated: the three
    constants below are computed once, at that moment. *)
Variable loaded_at : Z.

Definition CACHE_BUST : string := "&_=" ++ number_to_string (Int loaded_at).

Definition LEADERBOARD_CSV_URL : string :=
  CORS_PROXY
  ++ encodeURIComponent
       (SHEETS_BASE_URL ++ "&gid=" ++ SHEETS_CONFIG.leaderboardGid
        ++ CACHE_BUST).

Definition CONFIG_CSV_URL : string :=
  CORS_PROXY
  ++ encodeURIComponent
       (SHEETS_BASE_URL ++ "&gid=" ++ SHEETS_CONFIG.configGid ++ CACHE_BUST).

End Script.

(** Module state right after the script was evaluated. *)
Definition initial_CONFIG : config :=
  {| deadline := Null; currentWeek := Null |}.

Definition initial_CONTESTANTS : list contestant := [].

(** ** [parseCSV], lines 33-63 *)

(** The [for (const char of line)] loop with its three variables, followed
    by the final [values.push(current.trim())]. *)
Fixpoint scan (line : string) (vals : list value) (current : string)
  (inQuotes : bool) : list value :=
  match line with
  | EmptyString => (vals ++ [Str (trim current)])%list
  | String char rest =>
      if Ascii.eqb char DQUOTE then
        scan rest vals current (negb inQuotes)
      else if Ascii.eqb char COMMA && negb inQuotes then
        scan rest (vals ++ [Str (trim current)])%list "" inQuotes
      else
        scan rest vals (current ++ String char "") inQuotes
  end.

(** [headers.forEach((header, i) => { row[header] = values[i] || ''; })],
    from index [i] on. *)
Fixpoint fill (headers : list string) (i : nat) (vals : list value)
  (row : object) : object :=
  match headers with
  | [] => row
  | header :: headers' =>
      fill headers' (S i) vals
        (set row header (logical_or (at_index vals i) (Str "")))
  end.

Definition parse_headers (line0 : string) : list string :=
  map (fun h => remove_all DQUOTE (trim h)) (split COMMA line0).

Definition parse_line (headers : list string) (line : string) : object :=
  let vals := scan line [] "" false in
  fill headers 0 vals [].

Definition parseCSV (csvText : string) : list object :=
  let lines := split LF (trim csvText) in
  if (List.length lines <? 2)%nat then []
  else
    let headers := parse_headers (hd "" lines) in
    map (parse_line headers) (tl lines).

(** ** [fetchLeaderboardData], lines 65-87 *)

(** [Array.prototype.sort(comparefn)].  A comparator result of [NaN] counts
    as [+0].  The standard fixes the outcome (the stable sorted permutation)
    when the comparator is a consistent ordering of the elements, and leaves
    the order to the engine otherwise; the embedding inserts the elements one
    by one, last to first, each before the first element that does not
    compare smaller. *)
Section Sort.
Context {A : Type} (comparefn : A -> A -> number).

Definition SortCompare (x y : A) : Z :=
  match comparefn x y with
  | NaN => 0
  | Int v => v
  end.

Fixpoint insert (x : A) (l : list A) : list A :=
  match l with
  | [] => [x]
  | y :: l' => if SortCompare x y <=? 0 then x :: l else y :: insert x l'
  end.

Definition sort (l : list A) : list A := fold_right insert [] l.

End Sort.

(** [row => row['Codename'] && row['Current Rank']]. *)
Definition keep (row : object) : bool :=
  truthy (logical_and (get row "Codename") (get row "Current Rank")).

(** The callback of [.map]. *)
Definition project (row : object) : contestant :=
  {| codename := get row "Codename";
     currentRank := parseInt (get row "Current Rank");
     previousRank :=
       or_number (parseInt (get row "Previous Rank"))
                 (parseInt (get row "Current Rank"));
     shamed := strict_eq (get row "Shamed") (Str "TRUE") |}.

(** [(a, b) => a.currentRank - b.currentRank]. *)
Definition by_rank (a b : contestant) : number :=
  subtract (currentRank a) (currentRank b).

Definition leaderboard (data : list object) : list contestant :=
  sort by_rank (map project (filter keep data)).

Definition fetchLeaderboardData (loaded_at : Z) : M (list contestant) :=
  try_catch
    (response <- fetch (LEADERBOARD_CSV_URL loaded_at) ;;
     csvText <- text response ;;
     let data := parseCSV csvText in
     write_CONTESTANTS (leaderboard data) ;;
     read_CONTESTANTS)
    (fun error =>
       console_error "Failed to fetch leaderboard:" error ;;
       ret []).

(** ** [fetchConfigData], lines 89-112 *)

(** The callback of [data.forEach]. *)
Definition config_row (row : object) : M unit :=
  let key := at_index (values row) 0 in
  let value := at_index (values row) 1 in
  if strict_eq key (Str "deadline") then
    c <- read_CONFIG ;;
    write_CONFIG {| deadline := value; currentWeek := currentWeek c |}
  else if strict_eq key (Str "current_week") then
    c <- read_CONFIG ;;
    write_CONFIG {| deadline := deadline c;
                    currentWeek := Num (parseInt value) |}
  else ret tt.

Definition fetchConfigData (loaded_at : Z) : M config :=
  try_catch
    (response <- fetch (CONFIG_CSV_URL loaded_at) ;;
     csvText <- text response ;;
     let data := parseCSV csvText in
     forEach config_row data ;;
     read_CONFIG)
    (fun error =>
       console_error "Failed to fetch config:" error ;;
       read_CONFIG).

(** ** [getMovement], lines 118-123 *)

Record movement : Type := {
  symbol : string;
  class : string
}.

Definition getMovement (currentRank previousRank : number) : movement :=
  let diff := subtract previousRank currentRank in
  if gt0 diff then
    {| symbol := "↑" ++ number_to_string diff; class := "movement-up" |}
  else if lt0 diff then
    {| symbol := "↓" ++ number_to_string (Math_abs diff);
       class := "movement-down" |}
  else {| symbol := "–"; class := "movement-same" |}.


(** ** [getRankClass] and [getRankEmoji], lines 125-137 *)

Definition getRankClass (rank : number) : string :=
  if strict_eq (Num rank) (Num (Int 1)) then "gold"
  else if strict_eq (Num rank) (Num (Int 2)) then "silver"
  else if strict_eq (Num rank) (Num (Int 3)) then "bronze"
  else "".

Definition getRankEmoji (rank : number) : string :=
  if strict_eq (Num rank) (Num (Int 1)) then "🥇"
  else if strict_eq (Num rank) (Num (Int 2)) then "🥈"
  else if strict_eq (Num rank) (Num (Int 3)) then "🥉"
  else number_to_string rank ++ ".".

(** ** The document

    The page is seen through the elements [app.js] looks up by id.  An
    element keeps what was last assigned to its [innerHTML] or to its
    [textContent], its class list and its [style.display].  The elements
    whose [innerHTML] is assigned are taken not to contain the other
    elements looked up.  [getElementById] yields [null] for an id the
    document does not have, and using [null] as an element throws. *)

Inductive content : Type :=
| Markup (html : string)
| Text (text : string).

Record element : Type := {
  contents : content;
  classList : list string;
  display : string
}.

Definition document : Type := string -> option element.

Definition Dom (A : Type) : Type := document -> completion A * document.

Definition dom_ret {A} (a : A) : Dom A := fun doc => (Normal a, doc).

Definition dom_bind {A B} (c : Dom A) (k : A -> Dom B) : Dom B :=
  fun doc =>
    match c doc with
    | (Normal a, doc') => k a doc'
    | (Throw e, doc') => (Throw e, doc')
    end.

Declare Scope dom_scope.
Delimit Scope dom_scope with dom.
Notation "x <- c ;; k" := (dom_bind c (fun x => k))
  (at level 61, c at next level, right associativity) : dom_scope.
Notation "c ;; k" := (dom_bind c (fun _ => k))
  (at level 61, right associativity) : dom_scope.

(** [document.getElementById(id)]: the id itself stands for the element. *)
Definition getElementById (id : string) : Dom (option string) :=
  fun doc =>
    (Normal (match doc id with Some _ => Some id | None => None end), doc).

Definition modify (target : option string) (f : element -> element)
  : Dom unit :=
  fun doc =>
    match target with
    | None => (Throw "TypeError: null is not an object", doc)
    | Some id =>
        (Normal tt,
         fun i => if (i =? id)%string then option_map f (doc i) else doc i)
    end.

(** [target.innerHTML = html]. *)
Definition set_innerHTML (target : option string) (html : string)
  : Dom unit :=
  modify target
    (fun e => {| contents := Markup html; classList := classList e;
                 display := display e |}).

(** [target.textContent = v]. *)
Definition set_textContent (target : option string) (v : value) : Dom unit :=
  modify target
    (fun e => {| contents := Text (ToString v); classList := classList e;
                 display := display e |}).

(** [target.style.display = d]. *)
Definition set_style_display (target : option string) (d : string)
  : Dom unit :=
  modify target
    (fun e => {| contents := contents e; classList := classList e;
                 display := d |}).

(** [target.classList.add(c)]. *)
Definition classList_add (target : option string) (c : string) : Dom unit :=
  modify target
    (fun e => {| contents := contents e;
                 classList := if existsb (String.eqb c) (classList e)
                              then classList e
                              else (classList e ++ [c])%list;
                 display := display e |}).

(** ** [renderLeaderboard], lines 143-194 *)

Definition NL : string := String LF "".
Definition Q : string := String DQUOTE "".

Definition loading_html : string :=
  "<div class=" ++ Q ++ "loading" ++ Q ++ ">Loading leaderboard...</div>".

(** The callback of [leaders.map]. *)
Definition leaderboard_item (contestant : contestant) : string :=
  let movement :=
    getMovement (currentRank contestant) (previousRank contestant) in
  let rankClass := getRankClass (currentRank contestant) in
  let itemRankClass :=
    if less_equal (currentRank contestant) (Int 3)
    then "rank-" ++ number_to_string (currentRank contestant)
    else "" in
  NL ++ "      <div class=" ++ Q ++ "leaderboard-item " ++ itemRankClass ++ Q
  ++ ">"
  ++ NL ++ "        <span class=" ++ Q ++ "leaderboard-rank " ++ rankClass
  ++ Q ++ ">" ++ getRankEmoji (currentRank contestant) ++ "</span>"
  ++ NL ++ "        <span class=" ++ Q ++ "leaderboard-name" ++ Q ++ ">"
  ++ ToString (codename contestant) ++ "</span>"
  ++ NL ++ "        <span class=" ++ Q ++ "leaderboard-movement "
  ++ class movement ++ Q ++ ">" ++ symbol movement ++ "</span>"
  ++ NL ++ "      </div>"
  ++ NL ++ "    ".

(** The callback of [shamed.map]. *)
Definition shame_item (contestant : contestant) : string :=
  NL ++ "      <div class=" ++ Q ++ "shame-item" ++ Q ++ ">"
  ++ NL ++ "        <span class=" ++ Q ++ "shame-rank" ++ Q ++ ">🍔</span>"
  ++ NL ++ "        <span class=" ++ Q ++ "shame-name" ++ Q ++ ">"
  ++ ToString (codename contestant) ++ "</span>"
  ++ NL ++ "      </div>"
  ++ NL ++ "    ".

Definition shame_empty_html : string :=
  NL ++ "      <div class=" ++ Q ++ "shame-empty" ++ Q ++ ">"
  ++ NL ++ "        <span class=" ++ Q ++ "shame-empty-emoji" ++ Q
  ++ ">🎉</span>"
  ++ NL ++ "        <span class=" ++ Q ++ "shame-empty-headline" ++ Q
  ++ ">Cravings under control!</span>"
  ++ NL ++ "        <span class=" ++ Q ++ "shame-empty-text" ++ Q
  ++ ">Good job, everyone! 💪</span>"
  ++ NL ++ "      </div>"
  ++ NL ++ "    ".

(** [a.join('')]. *)
Definition join (a : list string) : string := String.concat "" a.

Definition renderLeaderboard (w : world) : Dom unit :=
  (container <- getElementById "leaderboard" ;;
   if (List.length (CONTESTANTS w) =? 0)%nat then
     set_innerHTML container loading_html
   else
     let leaders := filter (fun c => negb (shamed c)) (CONTESTANTS w) in
     let shamed := filter (fun c => shamed c) (CONTESTANTS w) in
     set_innerHTML container (join (map leaderboard_item leaders)) ;;
     shameContainer <- getElementById "shame-list" ;;
     shameSection <- getElementById "shame-section" ;;
     set_style_display shameSection "block" ;;
     if (0 <? List.length shamed)%nat then
       set_innerHTML shameContainer (join (map shame_item shamed))
     else
       set_innerHTML shameContainer shame_empty_html)%dom.

(** The callback of the five-minute interval, lines 361-364:
    [await fetchLeaderboardData(); renderLeaderboard();]. *)
Definition auto_refresh (loaded_at : Z) (w : world) (doc : document)
  : completion unit * (world * document) :=
  match fetchLeaderboardData loaded_at w with
  | (Normal _, w') =>
      let (r, doc') := renderLeaderboard w' doc in (r, (w', doc'))
  | (Throw e, w') => (Throw e, (w', doc))
  end.

(** ** [updateCountdown], lines 200-232 *)

(** [a < b]; [Math.floor(a / b)] and [a % b] for a positive integer [b]
    (the quotient of two integers below 2^53 by one of the divisors used
    here is never rounded up to the next integer, so flooring the double
    gives the integer quotient). *)
Definition less_than (a b : number) : bool :=
  match a, b with
  | Int x, Int y => x <? y
  | _, _ => false
  end.

Definition floor_quotient (a : number) (b : Z) : number :=
  match a with
  | Int x => Int (x / b)
  | NaN => NaN
  end.

Definition remainder (a : number) (b : Z) : number :=
  match a with
  | Int x => Int (Z.rem x b)
  | NaN => NaN
  end.

Section Countdown.

(** The time value of [new Date(s)] for a string [s], in milliseconds, or
    [NaN] when the engine cannot read [s] as a date. *)
Variable Date_parse : string -> number.

(** [new Date(v).getTime()]: [null] is the epoch, [undefined] is no date, a
    number is a time value when within 8.64e15 of the epoch. *)
Definition Date_getTime (v : value) : number :=
  match v with
  | Null => Int 0
  | Undefined => NaN
  | Str s => Date_parse s
  | Num NaN => NaN
  | Num (Int z) => if Z.abs z <=? 8640000000000000 then Int z else NaN
  end.

Definition updateCountdown (w : world) : Dom unit :=
  (let deadline := Date_getTime (deadline (CONFIG w)) in
   let now := Int (Date_now w) in
   let distance := subtract deadline now in
   countdownEl <- getElementById "countdown" ;;
   if lt0 distance then
     e <- getElementById "days" ;; set_textContent e (Str "0") ;;
     e <- getElementById "hours" ;; set_textContent e (Str "0") ;;
     e <- getElementById "minutes" ;; set_textContent e (Str "0") ;;
     e <- getElementById "seconds" ;; set_textContent e (Str "0")
   else
     let days := floor_quotient distance (1000 * 60 * 60 * 24) in
     let hours :=
       floor_quotient (remainder distance (1000 * 60 * 60 * 24))
         (1000 * 60 * 60) in
     let minutes :=
       floor_quotient (remainder distance (1000 * 60 * 60)) (1000 * 60) in
     let seconds := floor_quotient (remainder distance (1000 * 60)) 1000 in
     e <- getElementById "days" ;; set_textContent e (Num days) ;;
     e <- getElementById "hours" ;; set_textContent e (Num hours) ;;
     e <- getElementById "minutes" ;; set_textContent e (Num minutes) ;;
     e <- getElementById "seconds" ;; set_textContent e (Num seconds) ;;
     (if less_than days (Int 7) then classList_add countdownEl "urgent"
      else dom_ret tt) ;;
     (if less_than days (Int 3) then classList_add countdownEl "critical"
      else dom_ret tt))%dom.

End Countdown.

(** ** Vocabulary of the statements *)




(** The network outcome of a refresh that fails. *)
Definition failing (r : response) : Prop := r = Rejected \/ r = Unreadable.

(** Ranks in non-decreasing order, with the comparison of the engine. *)
Definition rank_le (a b : contestant) : Prop :=
  less_equal (currentRank a) (currentRank b) = true.

Definition has_rank (r : number) (c : contestant) : bool :=
  number_eqb (currentRank c) r.

(** A cell of a data line as a spreadsheet exports it: bare, or enclosed in
    double quotes. *)
Inductive cell : Type :=
| Bare (content : string)
| Quoted (content : string).

Definition content_of (c : cell) : string :=
  match c with Bare s | Quoted s => s end.

Definition render_cell (c : cell) : string :=
  match c with
  | Bare s => s
  | Quoted s => String DQUOTE (s ++ String DQUOTE "")
  end.

Definition render_line (cells : list cell) : string :=
  String.concat (String COMMA "") (map render_cell cells).

Fixpoint occurs (c : ascii) (s : string) : bool :=
  match s with
  | EmptyString => false
  | String a r => Ascii.eqb a c || occurs c r
  end.

Definition representable (c : cell) : bool :=
  match c with
  | Bare s => negb (occurs DQUOTE s) && negb (occurs COMMA s)
  | Quoted s => negb (occurs DQUOTE s)
  end.

(** Lines of a sheet joined by line feeds. *)
Definition csv (rows : list string) : string :=
  String.concat (String LF "") rows.

(** The header tokens that become keys of a record: [__proto__] never
    does. *)
Definition key_tokens (headers : list string) : list string :=
  filter (fun h => negb (h =? "__proto__")%string) headers.

(** Worlds used as concrete inputs: a page just loaded at time [now] in
    front of a given network, and the same page later, when the clock and
    the network have moved on. *)
Definition offline : string -> response := fun _ => Rejected.

Definition serving (body : string) : string -> response :=
  fun _ => Body body.

Definition fresh_world (now : Z) (net : string -> response) : world :=
  {| clock := now; network := net; requests := []; console := [];
     CONTESTANTS := initial_CONTESTANTS; CONFIG := initial_CONFIG |}.

Definition later (now : Z) (net : string -> response) (w : world) : world :=
  {| clock := now; network := net; requests := requests w;
     console := console w; CONTESTANTS := CONTESTANTS w;
     CONFIG := CONFIG w |}.

(** The part of a request address that does not depend on the time. *)
Definition leaderboard_prefix : string :=
  CORS_PROXY
  ++ encodeURIComponent
       (SHEETS_BASE_URL ++ "&gid=" ++ SHEETS_CONFIG.leaderboardGid ++ "&_=").

Definition config_prefix : string :=
  CORS_PROXY
  ++ encodeURIComponent
       (SHEETS_BASE_URL ++ "&gid=" ++ SHEETS_CONFIG.configGid ++ "&_=").

(** Sheets used as concrete inputs. *)
Definition one_contestant_sheet : string :=
  csv ["Codename,Current Rank"; "ace,1"].


Definition headed_config_sheet : string :=
  csv ["key,value"; "deadline,2025-12-31"; "current_week,7"; "unknown,x"].

Definition bad_week_sheet : string :=
  csv ["key,value"; "current_week,soon"].

(** The key and the value [config_row] reads in a record, and what the
    callback does to [CONFIG]. *)
Definition key_of (row : object) : value := at_index (values row) 0.
Definition value_of (row : object) : value := at_index (values row) 1.

Definition update_config (c : config) (row : object) : config :=
  if strict_eq (key_of row) (Str "deadline") then
    {| deadline := value_of row; currentWeek := currentWeek c |}
  else if strict_eq (key_of row) (Str "current_week") then
    {| deadline := deadline c; currentWeek := Num (parseInt (value_of row)) |}
  else c.

(** A page whose [currentWeek] is 7 after a first configuration refresh,
    in front of a sheet whose week does not parse. *)
Definition week_seven_world : world :=
  later 60000 (serving bad_week_sheet)
    (snd (fetchConfigData 0 (fresh_world 0 (serving headed_config_sheet)))).

(** The two-line text of the quote-toggle example: a header line and a data
    line, each with a quoted cell that contains a comma. *)
Definition quoted_header_line : string :=
  render_line [Bare "a"; Quoted "b,c"; Bare "d"].

Definition quoted_data_line : string :=
  render_line [Bare "X"; Quoted "Y,Z"; Bare "W"].

Definition quoted_sheet : string :=
  csv [quoted_header_line; quoted_data_line].

Fixpoint count (c : ascii) (s : string) : nat :=
  match s with
  | EmptyString => O
  | String a r => if Ascii.eqb a c then S (count c r) else count c r
  end.

(** A sheet whose two columns carry the same header. *)
Definition repeated_header_sheet : string := csv ["a,a"; "1,2"].

(** A sheet with two unnamed trailing columns. *)
Definition blank_header_sheet : string :=
  csv ["Codename,Current Rank,,"; "ace,1,,"].

(** Leaderboard sheets used as concrete inputs: one with a rank that is
    not a number, one with a previous rank of zero, one with a record that
    has a rank but no codename. *)
Definition unranked_sheet : string :=
  csv ["Codename,Current Rank"; "ann,3"; "bob,x"; "cyd,1"].

Definition zero_previous_sheet : string :=
  csv ["Codename,Current Rank,Previous Rank"; "ace,5,0"].

Definition nameless_sheet : string :=
  csv ["Codename,Current Rank"; ",abc"].

Definition numeric (c : contestant) : Prop := currentRank c <> NaN.

Definition tied_sheet : string :=
  csv ["Codename,Current Rank"; "ann,2"; "bob,1"; "cyd,2"].

(** A page configured by a first refresh, later cut off from the
    network. *)
Definition configured_offline_world : world :=
  later 120000 offline
    (snd (fetchConfigData 0 (fresh_world 0 (serving headed_config_sheet)))).

(** Values that are strings free of double quotes, and the cell a record
    receives for the column of index [j]. *)
Definition plain (v : value) : bool :=
  match v with
  | Str s => negb (occurs DQUOTE s)
  | _ => false
  end.

Definition cell_value (vals : list value) (j : nat) : value :=
  logical_or (at_index vals j) (Str "").

Definition is_index (k : string) : bool :=
  match array_index k with Some _ => true | None => false end.

(** The result of [getMovement] for a contestant that did not move. *)
Definition no_movement : movement :=
  {| symbol := "–"; class := "movement-same" |}.

(** The part the two request addresses have in common, up to the range
    id. *)
Definition address_stem : string :=
  CORS_PROXY ++ encodeURIComponent (SHEETS_BASE_URL ++ "&gid=").

(** The contestants of [tied_sheet] by rank, ties in record order. *)
Definition tied_order : list contestant :=
  [ {| codename := Str "bob"; currentRank := Int 1;
       previousRank := Int 1; shamed := false |};
    {| codename := Str "ann"; currentRank := Int 2;
       previousRank := Int 2; shamed := false |};
    {| codename := Str "cyd"; currentRank := Int 2;
       previousRank := Int 2; shamed := false |} ].

(** The document after [f] was applied to the element of id [id]. *)
Definition updated (id : string) (f : element -> element) (doc : document)
  : document :=
  fun i => if (i =? id)%string then option_map f (doc i) else doc i.

Definition with_markup (html : string) (e : element) : element :=
  {| contents := Markup html; classList := classList e;
     display := display e |}.

Definition with_text (s : string) (e : element) : element :=
  {| contents := Text s; classList := classList e; display := display e |}.

Definition with_display (d : string) (e : element) : element :=
  {| contents := contents e; classList := classList e; display := d |}.

Definition with_class (c : string) (e : element) : element :=
  {| contents := contents e;
     classList := if existsb (String.eqb c) (classList e)
                  then classList e
                  else (classList e ++ [c])%list;
     display := display e |}.

(** Two documents with the same elements. *)
Definition same_document (doc doc' : document) : Prop :=
  forall id, doc id = doc' id.

(** The main list and the shame list [renderLeaderboard] writes for a
    non-empty collection. *)
Definition main_markup (l : list contestant) : string :=
  join (map leaderboard_item (filter (fun c => negb (shamed c)) l)).

Definition shame_markup (l : list contestant) : string :=
  if (0 <? List.length (filter (fun c => shamed c) l))%nat
  then join (map shame_item (filter (fun c => shamed c) l))
  else shame_empty_html.

(** A document with the given ids, each an empty element, and the document
    of a page that has every element [app.js] renders into. *)
Definition blank_element : element :=
  {| contents := Markup ""; classList := []; display := "" |}.

Definition page_of (ids : list string) : document :=
  fun i => if existsb (String.eqb i) ids then Some blank_element else None.

Definition index_page : document :=
  page_of ["leaderboard"; "shame-list"; "shame-section"; "countdown";
           "days"; "hours"; "minutes"; "seconds"].

(** The document after the four figures of the countdown were written. *)
Definition countdown_texts (d h m s : value) (doc : document) : document :=
  updated "seconds" (with_text (ToString s))
    (updated "minutes" (with_text (ToString m))
       (updated "hours" (with_text (ToString h))
          (updated "days" (with_text (ToString d)) doc))).

(** The text an element shows, if it exists and holds text. *)
Definition shown (doc : document) (id : string) : option string :=
  match doc id with
  | Some {| contents := Text s |} => Some s
  | _ => None
  end.

Definition classes (doc : document) (id : string) : list string :=
  match doc id with
  | Some e => classList e
  | None => []
  end.

(** A clock that reads dates given as a number of milliseconds, and a page
    whose deadline is one hour and one second away. *)
Definition numeric_dates (s : string) : number := parseInt (Str s).

Definition hour_left_world : world :=
  {| clock := 1000000; network := offline; requests := []; console := [];
     CONTESTANTS := [];
     CONFIG := {| deadline := Str "4601500"; currentWeek := Null |} |}.

(** ** [getMovement] *)

Section Movement.



Lemma getMovement_same (c : Z) :
  getMovement (Int c) (Int c)
  = {| symbol := "–"; class := "movement-same" |}.
Proof.
  unfold getMovement. cbn [subtract gt0 lt0].
  rewrite Z.sub_diag. reflexivity.
Qed.




End Movement.

(** ** Running the two refresh functions *)

Section Refresh.

Lemma fetchLeaderboardData_run (t : Z) (w : world) :
  fetchLeaderboardData t w
  = match network w (LEADERBOARD_CSV_URL t) with
    | Body body =>
        (Normal (leaderboard (parseCSV body)),
         store_CONTESTANTS (leaderboard (parseCSV body))
           (log_request (LEADERBOARD_CSV_URL t) w))
    | Rejected =>
        (Normal [],
         log_error "Failed to fetch leaderboard: TypeError: Failed to fetch"
           (log_request (LEADERBOARD_CSV_URL t) w))
    | Unreadable =>
        (Normal [],
         log_error ("Failed to fetch leaderboard: "
                    ++ "TypeError: Failed to read the response body")
           (log_request (LEADERBOARD_CSV_URL t) w))
    end.
Proof.
  unfold fetchLeaderboardData, try_catch, bind, fetch.
  destruct (network w (LEADERBOARD_CSV_URL t)); reflexivity.
Qed.

Lemma forEach_config_row_normal (data : list object) (w : world) :
  fst (forEach config_row data w) = Normal tt.
Proof.
  revert w. induction data as [| row data IH]; intros w; [reflexivity |].
  cbn [forEach]. unfold bind at 1.
  assert (H : fst (config_row row w) = Normal tt).
  { unfold config_row.
    destruct (strict_eq _ _); [reflexivity |].
    destruct (strict_eq _ _); reflexivity. }
  destruct (config_row row w) as [r w1]. cbn in H. subst r. apply IH.
Qed.

Lemma fetchConfigData_run (t : Z) (w : world) :
  fetchConfigData t w
  = match network w (CONFIG_CSV_URL t) with
    | Body body =>
        let w' := snd (forEach config_row (parseCSV body)
                         (log_request (CONFIG_CSV_URL t) w)) in
        (Normal (CONFIG w'), w')
    | Rejected =>
        (Normal (CONFIG w),
         log_error "Failed to fetch config: TypeError: Failed to fetch"
           (log_request (CONFIG_CSV_URL t) w))
    | Unreadable =>
        (Normal (CONFIG w),
         log_error ("Failed to fetch config: "
                    ++ "TypeError: Failed to read the response body")
           (log_request (CONFIG_CSV_URL t) w))
    end.
Proof.
  unfold fetchConfigData, try_catch, bind, fetch.
  destruct (network w (CONFIG_CSV_URL t)) as [| | body]; try reflexivity.
  cbn [text ret].
  pose proof (forEach_config_row_normal (parseCSV body)
                (log_request (CONFIG_CSV_URL t) w)) as H.
  destruct (forEach config_row (parseCSV body) _) as [r w1].
  cbn in H. subst r. reflexivity.
Qed.

(** Neither function lets an exception escape. *)
Lemma fetchLeaderboardData_returns (t : Z) (w : world) :
  exists l, fst (fetchLeaderboardData t w) = Normal l.
Proof.
  rewrite fetchLeaderboardData_run.
  destruct (network w _); eexists; reflexivity.
Qed.

Lemma fetchConfigData_returns (t : Z) (w : world) :
  exists c, fst (fetchConfigData t w) = Normal c.
Proof.
  rewrite fetchConfigData_run.
  destruct (network w _); eexists; reflexivity.
Qed.

(** C1, as the code has it.  When the leaderboard refresh fails (the fetch
    rejects, or reading the body does), [fetchLeaderboardData] leaves
    [CONTESTANTS] (and [CONFIG]) unchanged, so that reading the collection
    afterwards gives the same sequence as before the call, logs one line on
    the console, and returns the empty sequence. *)
Theorem fetchLeaderboardData_failure (t : Z) (w : world) :
  failing (network w (LEADERBOARD_CSV_URL t)) ->
  fst (fetchLeaderboardData t w) = Normal []
  /\ CONTESTANTS (snd (fetchLeaderboardData t w)) = CONTESTANTS w
  /\ fst (read_CONTESTANTS (snd (fetchLeaderboardData t w)))
     = fst (read_CONTESTANTS w)
  /\ CONFIG (snd (fetchLeaderboardData t w)) = CONFIG w
  /\ List.length (console (snd (fetchLeaderboardData t w)))
     = S (List.length (console w)).
Proof.
  intros [H | H]; rewrite fetchLeaderboardData_run, H; repeat split.
Qed.

Lemma fetchLeaderboardData_failure_witness :
  failing (network (fresh_world 0 offline) (LEADERBOARD_CSV_URL 0))
  /\ fst (fetchLeaderboardData 0 (fresh_world 0 offline)) = Normal [].
Proof.
  assert (H : failing (network (fresh_world 0 offline)
                         (LEADERBOARD_CSV_URL 0))) by (left; reflexivity).
  split; [exact H |].
  exact (proj1 (fetchLeaderboardData_failure 0 (fresh_world 0 offline) H)).
Defined.

(** C1, as stated, fails on the returned value: after a successful refresh
    that installed one contestant, a refresh against a network that rejects
    returns the empty sequence, not the collection it still owns. *)
Lemma failed_refresh_returns_empty :
  let w1 := snd (fetchLeaderboardData 0
                   (fresh_world 0 (serving one_contestant_sheet))) in
  let w := later 300000 offline w1 in
  failing (network w (LEADERBOARD_CSV_URL 0))
  /\ CONTESTANTS w
     = [ {| codename := Str "ace"; currentRank := Int 1;
            previousRank := Int 1; shamed := false |} ]
  /\ fst (fetchLeaderboardData 0 w) = Normal []
  /\ fst (fetchLeaderboardData 0 w) <> Normal (CONTESTANTS w).
Proof.
  cbv zeta. split; [left; reflexivity |].
  split; [vm_compute; reflexivity |].
  split; [vm_compute; reflexivity |].
  vm_compute. discriminate.
Qed.

End Refresh.

(** ** Strings and decimal numerals *)

Section Strings.

Lemma append_assoc (a b c : string) : (a ++ b) ++ c = a ++ (b ++ c).
Proof. induction a as [| x a IH]; cbn; [reflexivity | now rewrite IH]. Qed.

Lemma append_nil_r (a : string) : a ++ "" = a.
Proof. induction a as [| x a IH]; cbn; [reflexivity | now rewrite IH]. Qed.

Lemma append_cancel_l (a x y : string) : a ++ x = a ++ y -> x = y.
Proof.
  induction a as [| c a IH]; cbn; intros H; [exact H |].
  injection H as H. now apply IH.
Qed.

Lemma encodeURIComponent_app (a b : string) :
  encodeURIComponent (a ++ b) = encodeURIComponent a ++ encodeURIComponent b.
Proof.
  induction a as [| c a IH]; cbn [append encodeURIComponent];
    [reflexivity |].
  destruct (unreserved c); cbn [append]; now rewrite IH.
Qed.

Lemma encodeURIComponent_uint (d : Decimal.uint) :
  encodeURIComponent (NilEmpty.string_of_uint d) = NilEmpty.string_of_uint d.
Proof. induction d; cbn; now rewrite ?IHd. Qed.

Lemma encodeURIComponent_number (z : Z) :
  encodeURIComponent (number_to_string (Int z)) = number_to_string (Int z).
Proof.
  unfold number_to_string, NilZero.string_of_int.
  destruct (Z.to_int z) as [d | d]; destruct d;
    try reflexivity;
    cbn [NilZero.string_of_uint encodeURIComponent];
    try (change (unreserved "-") with true; cbv iota);
    now rewrite encodeURIComponent_uint.
Qed.

Lemma to_int_proper (z : Z) :
  Z.to_int z <> Decimal.Pos Decimal.Nil
  /\ Z.to_int z <> Decimal.Neg Decimal.Nil.
Proof.
  destruct z as [| p | p]; cbn; split; try discriminate;
    intros [= H]; now apply (Unsigned.to_uint_nonnil p).
Qed.

Lemma number_to_string_inj (a b : Z) :
  number_to_string (Int a) = number_to_string (Int b) -> a = b.
Proof.
  unfold number_to_string. intros H.
  apply DecimalZ.to_int_inj.
  destruct (to_int_proper a) as [Ha1 Ha2], (to_int_proper b) as [Hb1 Hb2].
  pose proof (NilZero.isi _ Ha1 Ha2) as Ea.
  pose proof (NilZero.isi _ Hb1 Hb2) as Eb.
  rewrite H in Ea. rewrite Ea in Eb. now injection Eb.
Qed.

End Strings.

(** ** Request addresses *)

Section Addresses.

Lemma address_shape (base gid : string) (t : Z) :
  CORS_PROXY ++ encodeURIComponent (base ++ "&gid=" ++ gid ++ CACHE_BUST t)
  = (CORS_PROXY ++ encodeURIComponent (base ++ "&gid=" ++ gid ++ "&_="))
    ++ number_to_string (Int t).
Proof.
  unfold CACHE_BUST.
  rewrite <- !append_assoc.
  rewrite (encodeURIComponent_app _ (number_to_string (Int t))).
  rewrite encodeURIComponent_number.
  now rewrite !append_assoc.
Qed.

Lemma LEADERBOARD_CSV_URL_shape (t : Z) :
  LEADERBOARD_CSV_URL t = leaderboard_prefix ++ number_to_string (Int t).
Proof. apply address_shape. Qed.

Lemma CONFIG_CSV_URL_shape (t : Z) :
  CONFIG_CSV_URL t = config_prefix ++ number_to_string (Int t).
Proof. apply address_shape. Qed.

Lemma leaderboard_prefix_value :
  leaderboard_prefix
  = "https://api.codetabs.com/v1/proxy?quest=https%3A%2F%2Fdocs.google.com%2Fspreadsheets%2Fd%2F1htoeLmi-aczeAOJpHjf3hFnT5L26kUaGHukXX6l920g%2Fexport%3Fformat%3Dcsv%26gid%3D0%26_%3D".
Proof. reflexivity. Qed.

Lemma requests_fetchLeaderboardData (t : Z) (w : world) :
  requests (snd (fetchLeaderboardData t w))
  = LEADERBOARD_CSV_URL t :: requests w.
Proof.
  rewrite fetchLeaderboardData_run.
  destruct (network w _); reflexivity.
Qed.

Lemma requests_forEach_config_row (data : list object) (w : world) :
  requests (snd (forEach config_row data w)) = requests w.
Proof.
  revert w. induction data as [| row data IH]; intros w; [reflexivity |].
  cbn [forEach]. unfold bind at 1.
  assert (H : fst (config_row row w) = Normal tt
              /\ requests (snd (config_row row w)) = requests w).
  { unfold config_row.
    destruct (strict_eq _ _); [now split |].
    destruct (strict_eq _ _); now split. }
  destruct (config_row row w) as [r w1]. cbn in H. destruct H as [-> H].
  now rewrite IH.
Qed.

Lemma requests_fetchConfigData (t : Z) (w : world) :
  requests (snd (fetchConfigData t w)) = CONFIG_CSV_URL t :: requests w.
Proof.
  rewrite fetchConfigData_run.
  destruct (network w _); try reflexivity.
  cbn [snd]. now rewrite requests_forEach_config_row.
Qed.

(** C5, as the code has it.  The cache-busting parameter is computed once,
    from the time at which the script was evaluated ([loaded_at]), not at
    each call.  Every fetch of a range requests the address made of a fixed
    prefix (the proxy followed by the encoded export address ending in
    [&_=]) and the decimal numeral of [loaded_at]; whatever the clock shows
    when the fetch is issued, the address is the same.  Pages loaded at
    different times use different addresses. *)
Theorem cache_bust_per_load (loaded_at : Z) (w : world) :
  requests (snd (fetchLeaderboardData loaded_at w))
  = (leaderboard_prefix ++ number_to_string (Int loaded_at)) :: requests w
  /\ requests (snd (fetchConfigData loaded_at w))
     = (config_prefix ++ number_to_string (Int loaded_at)) :: requests w
  /\ (forall now net,
        requests (snd (fetchLeaderboardData loaded_at (later now net w)))
        = requests (snd (fetchLeaderboardData loaded_at w)))
  /\ (forall loaded_at',
        loaded_at' <> loaded_at ->
        LEADERBOARD_CSV_URL loaded_at' <> LEADERBOARD_CSV_URL loaded_at
        /\ CONFIG_CSV_URL loaded_at' <> CONFIG_CSV_URL loaded_at).
Proof.
  split; [| split; [| split]].
  - now rewrite requests_fetchLeaderboardData, LEADERBOARD_CSV_URL_shape.
  - now rewrite requests_fetchConfigData, CONFIG_CSV_URL_shape.
  - intros now net. now rewrite !requests_fetchLeaderboardData.
  - intros t' Hne. split; intros H.
    + rewrite (LEADERBOARD_CSV_URL_shape t'),
        (LEADERBOARD_CSV_URL_shape loaded_at) in H.
      apply append_cancel_l, number_to_string_inj in H. contradiction.
    + rewrite (CONFIG_CSV_URL_shape t'), (CONFIG_CSV_URL_shape loaded_at) in H.
      apply append_cancel_l, number_to_string_inj in H. contradiction.
Qed.

Lemma cache_bust_per_load_witness :
  1700000000001 <> 1700000000000
  /\ LEADERBOARD_CSV_URL 1700000000001 <> LEADERBOARD_CSV_URL 1700000000000.
Proof.
  assert (H : 1700000000001 <> 1700000000000) by discriminate.
  split; [exact H |].
  exact (proj1 (proj2 (proj2 (proj2
           (cache_bust_per_load 1700000000000 (fresh_world 0 offline))))
           1700000000001 H)).
Defined.

(** C5, as stated, fails: a page loaded at time 1000 fetches the
    leaderboard at once and again five minutes later, and both requests go
    to the same address. *)
Lemma same_address_at_different_times :
  let w1 := fresh_world 1000 (serving one_contestant_sheet) in
  let loaded_at := Date_now w1 in
  let w2 := later 301000 (serving one_contestant_sheet)
              (snd (fetchLeaderboardData loaded_at w1)) in
  Date_now w1 <> Date_now w2
  /\ exists address,
       requests (snd (fetchLeaderboardData loaded_at w2))
       = [address; address].
Proof.
  cbv zeta. split; [discriminate |].
  eexists. rewrite !requests_fetchLeaderboardData. reflexivity.
Qed.

End Addresses.

(** ** The configuration store *)

Section Config.

Lemma strict_eq_Str (v : value) (s : string) :
  strict_eq v (Str s) = true <-> v = Str s.
Proof.
  destruct v as [| | s' | n]; cbn; split; try discriminate.
  - intros H. apply String.eqb_eq in H. now subst.
  - intros [= ->]. apply String.eqb_refl.
Qed.

Lemma config_row_run (row : object) (w : world) :
  fst (config_row row w) = Normal tt
  /\ CONFIG (snd (config_row row w)) = update_config (CONFIG w) row
  /\ CONTESTANTS (snd (config_row row w)) = CONTESTANTS w.
Proof.
  unfold config_row, update_config, key_of, value_of.
  destruct (strict_eq _ _); [now repeat split |].
  destruct (strict_eq _ _); now repeat split.
Qed.

Lemma forEach_config_row_run (data : list object) (w : world) :
  CONFIG (snd (forEach config_row data w))
  = fold_left update_config data (CONFIG w)
  /\ CONTESTANTS (snd (forEach config_row data w)) = CONTESTANTS w.
Proof.
  revert w. induction data as [| row data IH]; intros w; [now split |].
  cbn [forEach fold_left].
  destruct (config_row_run row w) as (H1 & H2 & H3).
  assert (E : forall k : unit -> M unit,
             bind (config_row row) k w = k tt (snd (config_row row w))).
  { intros k. unfold bind.
    destruct (config_row row w) as [r w1]. cbn in H1. now subst r. }
  rewrite E, <- H2, <- H3. apply IH.
Qed.

(** What a successful configuration refresh leaves in [CONFIG], and
    returns. *)
Lemma fetchConfigData_success (t : Z) (w : world) (body : string) :
  network w (CONFIG_CSV_URL t) = Body body ->
  fst (fetchConfigData t w)
  = Normal (fold_left update_config (parseCSV body) (CONFIG w))
  /\ CONFIG (snd (fetchConfigData t w))
     = fold_left update_config (parseCSV body) (CONFIG w).
Proof.
  intros H. rewrite fetchConfigData_run, H. cbn [fst snd].
  destruct (forEach_config_row_run (parseCSV body)
              (log_request (CONFIG_CSV_URL t) w)) as [-> _].
  now split.
Qed.



Lemma update_config_ignored (c : config) (row : object) :
  key_of row <> Str "deadline" ->
  key_of row <> Str "current_week" ->
  update_config c row = c.
Proof.
  intros H1 H2. unfold update_config.
  destruct (strict_eq (key_of row) (Str "deadline")) eqn:E1.
  - apply strict_eq_Str in E1. contradiction.
  - destruct (strict_eq (key_of row) (Str "current_week")) eqn:E2;
      [| reflexivity].
    apply strict_eq_Str in E2. contradiction.
Qed.




Lemma update_config_current_week (c : config) (row : object) :
  key_of row = Str "current_week" ->
  update_config c row
  = {| deadline := deadline c; currentWeek := Num (parseInt (value_of row)) |}.
Proof. intros H. unfold update_config. now rewrite H. Qed.

Lemma update_config_deadline (c : config) (row : object) :
  key_of row = Str "deadline" ->
  update_config c row
  = {| deadline := value_of row; currentWeek := currentWeek c |}.
Proof. intros H. unfold update_config. now rewrite H. Qed.

Lemma fold_update_config_currentWeek (rest : list object) (c : config) :
  (forall r, In r rest -> key_of r <> Str "current_week") ->
  currentWeek (fold_left update_config rest c) = currentWeek c.
Proof.
  revert c. induction rest as [| r rest IH]; intros c H; [reflexivity |].
  cbn [fold_left]. rewrite IH by (intros r' Hr'; apply H; now right).
  unfold update_config.
  destruct (strict_eq (key_of r) (Str "deadline")); [reflexivity |].
  destruct (strict_eq (key_of r) (Str "current_week")) eqn:E;
    [| reflexivity].
  apply strict_eq_Str in E. now apply (H r (or_introl eq_refl)) in E.
Qed.

Lemma fold_update_config_deadline (rest : list object) (c : config) :
  (forall r, In r rest -> key_of r <> Str "deadline") ->
  deadline (fold_left update_config rest c) = deadline c.
Proof.
  revert c. induction rest as [| r rest IH]; intros c H; [reflexivity |].
  cbn [fold_left]. rewrite IH by (intros r' Hr'; apply H; now right).
  unfold update_config.
  destruct (strict_eq (key_of r) (Str "deadline")) eqn:E.
  - apply strict_eq_Str in E. now apply (H r (or_introl eq_refl)) in E.
  - destruct (strict_eq (key_of r) (Str "current_week")); reflexivity.
Qed.

(** C3, as the code has it.  A record whose key is [current_week] always
    overwrites [currentWeek] with [parseInt(value, 10)]: when the value does
    not parse, [currentWeek] becomes [NaN] whatever it was before.  A record
    whose key is [deadline] always overwrites [deadline] with the raw value.
    After a refresh each field holds what the last record with its key
    wrote. *)
Theorem current_week_overwritten (t : Z) (w : world) (body : string)
  (rows rest : list object) (row : object) :
  network w (CONFIG_CSV_URL t) = Body body ->
  parseCSV body = (rows ++ row :: rest)%list ->
  let after := CONFIG (snd (fetchConfigData t w)) in
  (key_of row = Str "current_week" ->
   (forall r, In r rest -> key_of r <> Str "current_week") ->
   currentWeek after = Num (parseInt (value_of row))
   /\ (parseInt (value_of row) = NaN -> currentWeek after = Num NaN))
  /\ (key_of row = Str "deadline" ->
      (forall r, In r rest -> key_of r <> Str "deadline") ->
      deadline after = value_of row).
Proof.
  intros Hnet Hrows after. subst after.
  destruct (fetchConfigData_success t w body Hnet) as [_ ->].
  rewrite Hrows, fold_left_app. cbn [fold_left].
  split.
  - intros Hkey Hrest.
    rewrite fold_update_config_currentWeek by exact Hrest.
    rewrite update_config_current_week by exact Hkey. cbn [currentWeek].
    split; [reflexivity | now intros ->].
  - intros Hkey Hrest.
    rewrite fold_update_config_deadline by exact Hrest.
    now rewrite update_config_deadline by exact Hkey.
Qed.

Lemma current_week_overwritten_witness :
  let w := week_seven_world in
  currentWeek (CONFIG w) = Num (Int 7)
  /\ currentWeek (CONFIG (snd (fetchConfigData 0 w))) = Num NaN.
Proof.
  cbv zeta. split; [vm_compute; reflexivity |].
  refine (proj2 (proj1 (current_week_overwritten 0 week_seven_world
                   bad_week_sheet []
                   [] [("key", Str "current_week"); ("value", Str "soon")]
                   eq_refl _) eq_refl _) _).
  - vm_compute. reflexivity.
  - intros r [].
  - vm_compute. reflexivity.
Defined.

(** C3, as stated, fails: with [currentWeek] at 7 from an earlier refresh,
    a sheet whose [current_week] value is the word soon leaves [currentWeek]
    at [NaN], not at 7. *)
Lemma unparseable_week_becomes_NaN :
  let w := week_seven_world in
  currentWeek (CONFIG w) = Num (Int 7)
  /\ parseCSV bad_week_sheet
     = [ [("key", Str "current_week"); ("value", Str "soon")] ]
  /\ parseInt (Str "soon") = NaN
  /\ currentWeek (CONFIG (snd (fetchConfigData 0 w))) = Num NaN
  /\ currentWeek (CONFIG (snd (fetchConfigData 0 w)))
     <> currentWeek (CONFIG w).
Proof.
  cbv zeta. repeat split; try (vm_compute; reflexivity).
  vm_compute. discriminate.
Qed.

End Config.

(** ** The line scanner and the header line *)

Section Scanner.

Lemma scan_plain (s rest : string) (vals : list value) (current : string)
  (inQuotes : bool) :
  occurs DQUOTE s = false ->
  inQuotes = true \/ occurs COMMA s = false ->
  scan (s ++ rest) vals current inQuotes
  = scan rest vals (current ++ s) inQuotes.
Proof.
  revert current.
  induction s as [| c s IH]; intros current Hq Hc.
  - cbn [append]. now rewrite append_nil_r.
  - cbn [occurs] in Hq, Hc. apply orb_false_elim in Hq as [Hq1 Hq2].
    cbn [append scan]. rewrite Hq1.
    assert (Ascii.eqb c COMMA && negb inQuotes = false) as ->.
    { destruct Hc as [-> | Hc]; [apply andb_false_r |].
      apply orb_false_elim in Hc as [-> _]. reflexivity. }
    rewrite IH.
    + now rewrite append_assoc.
    + exact Hq2.
    + destruct Hc as [Hc | Hc]; [now left | right].
      now apply orb_false_elim in Hc.
Qed.

Lemma scan_cell (c : cell) (rest : string) (vals : list value)
  (current : string) :
  representable c = true ->
  scan (render_cell c ++ rest) vals current false
  = scan rest vals (current ++ content_of c) false.
Proof.
  destruct c as [s | s]; cbn [representable render_cell content_of];
    intros H.
  - apply andb_true_iff in H as [Hq Hc].
    apply negb_true_iff in Hq, Hc. apply scan_plain; auto.
  - apply negb_true_iff in H.
    cbn [append scan]. rewrite Ascii.eqb_refl. cbn [negb].
    rewrite append_assoc, scan_plain by auto.
    cbn [append scan]. now rewrite Ascii.eqb_refl.
Qed.

Lemma scan_render_line (cells : list cell) (vals : list value) :
  cells <> [] ->
  forallb representable cells = true ->
  scan (render_line cells) vals "" false
  = (vals ++ map (fun c => Str (trim (content_of c))) cells)%list.
Proof.
  revert vals. induction cells as [| c cells IH]; intros vals Hne Hall;
    [contradiction |].
  cbn [forallb] in Hall. apply andb_true_iff in Hall as [Hc Hall].
  destruct cells as [| c' cells].
  - unfold render_line. cbn [map String.concat].
    rewrite <- (append_nil_r (render_cell c)), scan_cell by exact Hc.
    reflexivity.
  - unfold render_line in *. cbn [map String.concat] in *.
    rewrite scan_cell by exact Hc.
    cbn [append scan]. change (Ascii.eqb COMMA DQUOTE) with false.
    rewrite Ascii.eqb_refl. cbn [negb andb].
    rewrite IH by (discriminate || exact Hall).
    cbn [map app]. now rewrite <- app_assoc.
Qed.

Lemma length_split (sep : ascii) (s : string) :
  List.length (split sep s) = S (count sep s).
Proof.
  induction s as [| c s IH]; [reflexivity |].
  cbn [split count]. destruct (Ascii.eqb c sep).
  - cbn [List.length]. now rewrite IH.
  - destruct (split sep s); cbn [List.length] in *;
      [discriminate IH | exact IH].
Qed.

(** C4, as the code has it.  The header line is split at every comma,
    quoted or not, so the header of the example has the four tokens a, b, c
    and d, and its one record maps a to X, b to Y,Z, c to W and d to the
    empty string: the first two values are X and Y,Z.  On a data line, a
    comma inside a quoted region never splits a field: a line made of cells
    that are bare (no comma, no quote) or quoted (no quote inside) scans to
    the trimmed contents of the cells, one value per cell. *)
Theorem quote_toggle :
  parse_headers quoted_header_line = ["a"; "b"; "c"; "d"]
  /\ parseCSV quoted_sheet
     = [ [("a", Str "X"); ("b", Str "Y,Z"); ("c", Str "W"); ("d", Str "")] ]
  /\ (forall row, In row (parseCSV quoted_sheet) ->
        at_index (values row) 0 = Str "X"
        /\ at_index (values row) 1 = Str "Y,Z")
  /\ (forall line0,
        List.length (parse_headers line0) = S (count COMMA line0))
  /\ (forall cells,
        cells <> [] ->
        forallb representable cells = true ->
        scan (render_line cells) [] "" false
        = map (fun c => Str (trim (content_of c))) cells).
Proof.
  assert (E : parseCSV quoted_sheet
              = [ [("a", Str "X"); ("b", Str "Y,Z"); ("c", Str "W");
                   ("d", Str "")] ]) by (vm_compute; reflexivity).
  split; [vm_compute; reflexivity |].
  split; [exact E |].
  split; [| split].
  - rewrite E. intros row [<- | []]. split; vm_compute; reflexivity.
  - intros line0. unfold parse_headers.
    now rewrite length_map, length_split.
  - intros cells Hne Hall. now rewrite scan_render_line.
Qed.

Lemma quote_toggle_witness :
  [Bare " x "; Quoted "p,q"] <> []
  /\ forallb representable [Bare " x "; Quoted "p,q"] = true
  /\ scan (render_line [Bare " x "; Quoted "p,q"]) [] "" false
     = [Str (trim " x "); Str (trim "p,q")].
Proof.
  assert (H1 : [Bare " x "; Quoted "p,q"] <> []) by discriminate.
  assert (H2 : forallb representable [Bare " x "; Quoted "p,q"] = true)
    by reflexivity.
  split; [exact H1 |]. split; [exact H2 |].
  exact (proj2 (proj2 (proj2 (proj2 quote_toggle))) _ H1 H2).
Defined.

(** C4, as stated, fails on the header: the quoted header cell is cut at
    its comma, and the record of the example has four keys, not three. *)
Lemma quoted_header_is_split :
  List.length (parse_headers quoted_header_line) = 4%nat
  /\ map keys (parseCSV quoted_sheet) = [ ["a"; "b"; "c"; "d"] ]
  /\ List.length (parse_headers quoted_header_line) <> 3%nat.
Proof.
  split; [vm_compute; reflexivity |].
  split; [vm_compute; reflexivity |].
  vm_compute. discriminate.
Qed.

End Scanner.

(** ** Records built by [parseCSV] *)

Section Records.

Lemma has_key_In (o : object) (k : string) :
  has_key o k = true <-> In k (keys o).
Proof.
  induction o as [| [k' v'] o IH]; cbn; [split; [discriminate | tauto] |].
  rewrite orb_true_iff, String.eqb_eq, IH. tauto.
Qed.

Lemma keys_replace (o : object) (k : string) (v : value) :
  keys (replace o k v) = keys o.
Proof.
  induction o as [| [k' v'] o IH]; [reflexivity |].
  cbn [replace]. destruct (k' =? k)%string; cbn; [reflexivity |].
  unfold keys in IH. now rewrite IH.
Qed.

Lemma keys_set (o : object) (k : string) (v : value) :
  keys (set o k v)
  = if (k =? "__proto__")%string then keys o
    else if has_key o k then keys o
    else (keys o ++ [k])%list.
Proof.
  unfold set. destruct (k =? "__proto__")%string; [reflexivity |].
  destruct (has_key o k).
  - apply keys_replace.
  - unfold keys. now rewrite map_app.
Qed.

Lemma In_key_tokens (headers : list string) (k : string) :
  In k (key_tokens headers) <-> In k headers /\ k <> "__proto__".
Proof.
  unfold key_tokens. rewrite filter_In, negb_true_iff, String.eqb_neq.
  tauto.
Qed.

(** The keys of a filled record are distinct, and are the earlier keys
    together with the header tokens other than [__proto__]. *)
Lemma keys_fill (headers : list string) (i : nat) (vals : list value)
  (row : object) :
  NoDup (keys row) ->
  NoDup (keys (fill headers i vals row))
  /\ forall k, In k (keys (fill headers i vals row))
               <-> In k (keys row) \/ In k (key_tokens headers).
Proof.
  revert i row. induction headers as [| h headers IH]; intros i row Hnd.
  - cbn. split; [exact Hnd | tauto].
  - cbn [fill].
    set (row' := set row h (logical_or (at_index vals i) (Str ""))).
    assert (Hk : keys row'
                 = if (h =? "__proto__")%string then keys row
                   else if has_key row h then keys row
                   else (keys row ++ [h])%list) by apply keys_set.
    assert (Hnd' : NoDup (keys row')).
    { rewrite Hk. destruct (h =? "__proto__")%string; [exact Hnd |].
      destruct (has_key row h) eqn:E; [exact Hnd |].
      apply NoDup_app; [exact Hnd | repeat constructor; intros [] |].
      intros k Hin [<- | []].
      apply has_key_In in Hin. congruence. }
    destruct (IH (S i) row' Hnd') as [H1 H2]. split; [exact H1 |].
    intros k. rewrite H2, Hk. unfold key_tokens. cbn [filter].
    destruct (String.eqb_spec h "__proto__") as [-> | Hp]; cbn [negb].
    + tauto.
    + destruct (has_key row h) eqn:E.
      * apply has_key_In in E. cbn [In]. intuition (subst; auto).
      * rewrite in_app_iff. cbn [In]. tauto.
Qed.

Lemma keys_fill_distinct (headers : list string) (i : nat)
  (vals : list value) (row : object) :
  NoDup headers ->
  ~ In "__proto__" headers ->
  (forall k, In k headers -> ~ In k (keys row)) ->
  keys (fill headers i vals row) = (keys row ++ headers)%list.
Proof.
  revert i row. induction headers as [| h headers IH];
    intros i row Hnd Hp Hfresh.
  - cbn. now rewrite app_nil_r.
  - cbn [fill]. inversion Hnd as [| ? ? Hh Hnd']; subst.
    assert (Hk : keys (set row h (logical_or (at_index vals i) (Str "")))
                 = (keys row ++ [h])%list).
    { rewrite keys_set.
      destruct (String.eqb_spec h "__proto__") as [-> | _].
      - exfalso. apply Hp. now left.
      - destruct (has_key row h) eqn:E; [| reflexivity].
        apply has_key_In in E. exfalso.
        apply (Hfresh h); [now left | exact E]. }
    rewrite IH.
    + rewrite Hk, <- app_assoc. reflexivity.
    + exact Hnd'.
    + intros H. apply Hp. now right.
    + intros k Hin. rewrite Hk, in_app_iff. cbn [In].
      intros [H | [<- | []]]; [| contradiction].
      apply (Hfresh k); [now right | exact H].
Qed.

Lemma key_count_parse_line (headers : list string) (line : string) :
  List.length (keys (parse_line headers line))
  = List.length (nodup string_dec (key_tokens headers)).
Proof.
  unfold parse_line.
  destruct (keys_fill headers 0 (scan line [] "" false) [])
    as [Hnd Hin]; [constructor |].
  apply Permutation_length, NoDup_Permutation.
  - exact Hnd.
  - apply NoDup_nodup.
  - intros k. rewrite Hin, nodup_In. cbn [keys map In]. tauto.
Qed.

Lemma parseCSV_unfold (csvText : string) :
  parseCSV csvText
  = if (List.length (split LF (trim csvText)) <? 2)%nat then []
    else map (parse_line (parse_headers (hd "" (split LF (trim csvText)))))
           (tl (split LF (trim csvText))).
Proof. reflexivity. Qed.

(** C8, as the code has it.  When the trimmed text splits into n >= 2
    lines, [parseCSV] returns exactly n - 1 records, and each record has
    exactly as many keys as the header line has distinct header tokens, a
    token [__proto__] not counted (assigning to it creates no key); when the
    header tokens are pairwise distinct and none is [__proto__], the keys of
    each record are the header tokens, in order.  When the trimmed text
    splits into fewer than 2 lines, as for the empty text and for a single
    header line, [parseCSV] returns the empty sequence. *)
Theorem parseCSV_shape (csvText : string) :
  let lines := split LF (trim csvText) in
  let headers := parse_headers (hd "" lines) in
  ((2 <= List.length lines)%nat ->
   List.length (parseCSV csvText) = (List.length lines - 1)%nat
   /\ forall row, In row (parseCSV csvText) ->
        List.length (keys row)
        = List.length (nodup string_dec (key_tokens headers))
        /\ (NoDup headers -> ~ In "__proto__" headers ->
            keys row = headers
            /\ List.length (keys row) = List.length headers))
  /\ ((List.length lines < 2)%nat -> parseCSV csvText = [])
  /\ parseCSV "" = []
  /\ parseCSV "onlyheader" = [].
Proof.
  cbv zeta. rewrite parseCSV_unfold.
  split; [| split; [| split; reflexivity]].
  - intros Hn.
    destruct (Nat.ltb_spec (List.length (split LF (trim csvText))) 2)
      as [Hlt | _]; [lia |].
    split.
    + rewrite length_map.
      destruct (split LF (trim csvText)); cbn [tl List.length] in *; lia.
    + intros row Hin. apply in_map_iff in Hin as (line & <- & _).
      split; [apply key_count_parse_line |].
      intros Hnd Hp.
      assert (E : keys (parse_line
                          (parse_headers
                             (hd "" (split LF (trim csvText)))) line)
                  = parse_headers (hd "" (split LF (trim csvText)))).
      { unfold parse_line.
        rewrite keys_fill_distinct; auto. }
      now rewrite E.
  - intros Hn.
    destruct (Nat.ltb_spec (List.length (split LF (trim csvText))) 2)
      as [_ | Hge]; [reflexivity | lia].
Qed.

Lemma parseCSV_shape_witness :
  (2 <= List.length (split LF (trim one_contestant_sheet)))%nat
  /\ List.length (parseCSV one_contestant_sheet) = 1%nat.
Proof.
  assert (H : (2 <= List.length
                      (split LF (trim one_contestant_sheet)))%nat)
    by (vm_compute; lia).
  split; [exact H |].
  exact (proj1 (proj1 (parseCSV_shape one_contestant_sheet) H)).
Defined.

(** C8, as stated, fails on the key count: with the header line a,a the
    header has two tokens and the record a single key; with two unnamed
    trailing columns the header has four tokens and the record three
    keys.  Every line of both texts has as many fields as the header. *)
Lemma repeated_header_fewer_keys :
  (parse_headers (hd "" (split LF (trim repeated_header_sheet)))
   = ["a"; "a"]
   /\ parseCSV repeated_header_sheet = [ [("a", Str "2")] ]
   /\ map (fun row => List.length (keys row))
        (parseCSV repeated_header_sheet)
      = [1%nat])
  /\ (parse_headers (hd "" (split LF (trim blank_header_sheet)))
      = ["Codename"; "Current Rank"; ""; ""]
      /\ parseCSV blank_header_sheet
         = [ [("Codename", Str "ace"); ("Current Rank", Str "1");
              ("", Str "")] ]
      /\ map (fun row => List.length (keys row))
           (parseCSV blank_header_sheet)
         = [3%nat]).
Proof.
  split; (split; [| split]); vm_compute; reflexivity.
Qed.

End Records.

(** ** Sorting by rank *)

Section Sorting.

Lemma insert_perm {A} (cmp : A -> A -> number) (x : A) (l : list A) :
  Permutation (insert cmp x l) (x :: l).
Proof.
  induction l as [| y l IH]; cbn [insert]; [reflexivity |].
  destruct (SortCompare cmp x y <=? 0); [reflexivity |].
  rewrite IH. apply perm_swap.
Qed.

Lemma sort_perm {A} (cmp : A -> A -> number) (l : list A) :
  Permutation (sort cmp l) l.
Proof.
  induction l as [| x l IH]; cbn; [constructor |].
  rewrite insert_perm. now constructor.
Qed.

Lemma numeric_Int (c : contestant) :
  numeric c -> exists z, currentRank c = Int z.
Proof.
  unfold numeric. destruct (currentRank c) as [| z]; [congruence |].
  now exists z.
Qed.

Lemma SortCompare_by_rank (a b : contestant) (x y : Z) :
  currentRank a = Int x -> currentRank b = Int y ->
  SortCompare by_rank a b = x - y.
Proof. intros Ha Hb. unfold SortCompare, by_rank. now rewrite Ha, Hb. Qed.

Lemma rank_le_Int (a b : contestant) (x y : Z) :
  currentRank a = Int x -> currentRank b = Int y ->
  rank_le a b <-> x <= y.
Proof.
  intros Ha Hb. unfold rank_le. rewrite Ha, Hb. cbn. apply Z.leb_le.
Qed.

Lemma insert_sorted (x : contestant) (l : list contestant) :
  numeric x -> Forall numeric l ->
  StronglySorted rank_le l ->
  StronglySorted rank_le (insert by_rank x l).
Proof.
  intros Hx Hl Hs.
  destruct (numeric_Int x Hx) as [zx Ex].
  induction Hs as [| y l Hs IH Hy]; cbn [insert].
  - repeat constructor.
  - inversion Hl as [| ? ? Hny Hnl]; subst.
    destruct (numeric_Int y Hny) as [zy Ey].
    rewrite (SortCompare_by_rank x y zx zy Ex Ey).
    destruct (Z.leb_spec (zx - zy) 0) as [Hle | Hgt].
    + constructor; [now constructor |].
      constructor; [apply (rank_le_Int x y zx zy Ex Ey); lia |].
      apply Forall_forall. intros c Hc.
      rewrite Forall_forall in Hy, Hnl.
      destruct (numeric_Int c (Hnl c Hc)) as [zc Ec].
      apply (rank_le_Int x c zx zc Ex Ec).
      pose proof (proj1 (rank_le_Int y c zy zc Ey Ec) (Hy c Hc)). lia.
    + constructor; [now apply IH |].
      apply Forall_forall. intros c Hc.
      apply (Permutation_in _ (insert_perm by_rank x l)) in Hc.
      destruct Hc as [<- | Hc].
      * apply (rank_le_Int y x zy zx Ey Ex). lia.
      * rewrite Forall_forall in Hy. now apply Hy.
Qed.

Lemma sort_numeric (l : list contestant) :
  Forall numeric l -> Forall numeric (sort by_rank l).
Proof.
  intros H. apply Forall_forall. intros c Hc.
  apply (Permutation_in _ (sort_perm by_rank l)) in Hc.
  rewrite Forall_forall in H. now apply H.
Qed.

Lemma sort_sorted (l : list contestant) :
  Forall numeric l -> StronglySorted rank_le (sort by_rank l).
Proof.
  induction l as [| x l IH]; intros H; cbn [sort fold_right];
    [constructor |].
  inversion H as [| ? ? Hx Hl]; subst.
  apply insert_sorted; [exact Hx | now apply sort_numeric | now apply IH].
Qed.

Lemma filter_insert (r : number) (x : contestant) (l : list contestant) :
  numeric x -> Forall numeric l ->
  filter (has_rank r) (insert by_rank x l)
  = filter (has_rank r) (x :: l).
Proof.
  intros Hx Hl. destruct (numeric_Int x Hx) as [zx Ex].
  induction l as [| y l IH]; cbn [insert]; [reflexivity |].
  inversion Hl as [| ? ? Hny Hnl]; subst.
  destruct (numeric_Int y Hny) as [zy Ey].
  rewrite (SortCompare_by_rank x y zx zy Ex Ey).
  destruct (Z.leb_spec (zx - zy) 0) as [Hle | Hgt]; [reflexivity |].
  cbn [filter] in *. rewrite (IH Hnl).
  assert (Hxy : has_rank r x = true -> has_rank r y = true -> False).
  { unfold has_rank. rewrite Ex, Ey.
    destruct r as [| zr]; cbn [number_eqb]; [discriminate |].
    intros H1 H2. apply Z.eqb_eq in H1, H2. lia. }
  destruct (has_rank r x), (has_rank r y); try reflexivity.
  now destruct Hxy.
Qed.

Lemma sort_stable (r : number) (l : list contestant) :
  Forall numeric l ->
  filter (has_rank r) (sort by_rank l) = filter (has_rank r) l.
Proof.
  induction l as [| x l IH]; intros H; [reflexivity |].
  inversion H as [| ? ? Hx Hl]; subst.
  change (sort by_rank (x :: l)) with (insert by_rank x (sort by_rank l)).
  rewrite filter_insert; [| exact Hx | now apply sort_numeric].
  cbn [filter]. now rewrite IH.
Qed.

(** On numeric ranks the comparator is a consistent ordering, and the result
    of [sort] is the only sequence that is sorted and keeps, rank by rank,
    the order of the source: whichever algorithm the engine runs, it yields
    this sequence. *)
Lemma sorted_stable_unique (l1 l2 : list contestant) :
  Forall numeric l1 -> Forall numeric l2 ->
  StronglySorted rank_le l1 -> StronglySorted rank_le l2 ->
  (forall r, filter (has_rank r) l1 = filter (has_rank r) l2) ->
  l1 = l2.
Proof.
  revert l2. induction l1 as [| a l1 IH]; intros l2 N1 N2 S1 S2 H.
  - destruct l2 as [| b l2]; [reflexivity |].
    inversion N2 as [| ? ? Nb _]; subst.
    destruct (numeric_Int b Nb) as [zb Eb].
    specialize (H (Int zb)). cbn [filter] in H. unfold has_rank in H.
    rewrite Eb in H. cbn in H. rewrite Z.eqb_refl in H. discriminate.
  - inversion N1 as [| ? ? Na N1']; subst.
    destruct (numeric_Int a Na) as [za Ea].
    assert (Hra : has_rank (Int za) a = true)
      by (unfold has_rank; rewrite Ea; apply Z.eqb_refl).
    destruct l2 as [| b l2].
    { specialize (H (Int za)). cbn [filter] in H. rewrite Hra in H.
      discriminate. }
    inversion N2 as [| ? ? Nb N2']; subst.
    destruct (numeric_Int b Nb) as [zb Eb].
    assert (Hrb : has_rank (Int zb) b = true)
      by (unfold has_rank; rewrite Eb; apply Z.eqb_refl).
    inversion S1 as [| ? ? S1' F1]; subst.
    inversion S2 as [| ? ? S2' F2]; subst.
    assert (Hba : zb <= za).
    { assert (Hin : In a (filter (has_rank (Int za)) (b :: l2))).
      { rewrite <- H. cbn [filter]. rewrite Hra. now left. }
      apply filter_In in Hin as [[<- | Hin] _].
      - rewrite Ea in Eb. injection Eb as ->. lia.
      - rewrite Forall_forall in F2.
        apply (rank_le_Int b a zb za Eb Ea). now apply F2. }
    assert (Hab : za <= zb).
    { assert (Hin : In b (filter (has_rank (Int zb)) (a :: l1))).
      { rewrite H. cbn [filter]. rewrite Hrb. now left. }
      apply filter_In in Hin as [[<- | Hin] _].
      - rewrite Ea in Eb. injection Eb as ->. lia.
      - rewrite Forall_forall in F1.
        apply (rank_le_Int a b za zb Ea Eb). now apply F1. }
    assert (zb = za) by lia. subst zb.
    assert (Eab : a = b).
    { specialize (H (Int za)). cbn [filter] in H.
      rewrite Hra, Hrb in H. now injection H. }
    subst b. f_equal. apply IH; auto.
    intros r. specialize (H r). cbn [filter] in H.
    destruct (has_rank r a); [now injection H | exact H].
Qed.

Lemma sort_characterised (l l' : list contestant) :
  Forall numeric l -> Forall numeric l' ->
  StronglySorted rank_le l' ->
  (forall r, filter (has_rank r) l' = filter (has_rank r) l) ->
  l' = sort by_rank l.
Proof.
  intros N N' S' H. apply sorted_stable_unique.
  - exact N'.
  - now apply sort_numeric.
  - exact S'.
  - now apply sort_sorted.
  - intros r. now rewrite sort_stable.
Qed.

(** A sequence of two or more contestants, one of which has rank [NaN], is
    not in non-decreasing order, not even between neighbours. *)
Lemma not_sorted_with_NaN (l : list contestant) (a : contestant) :
  In a l -> (2 <= List.length l)%nat -> currentRank a = NaN ->
  ~ Sorted rank_le l.
Proof.
  intros Ha Hlen Ea Hs.
  assert (Hl : forall x, ~ rank_le a x)
    by (intros x H; unfold rank_le in H; rewrite Ea in H; discriminate).
  assert (Hr : forall x, ~ rank_le x a).
  { intros x H. unfold rank_le in H. rewrite Ea in H.
    destruct (currentRank x); discriminate. }
  induction Hs as [| c l Hs IH Hc]; [contradiction |].
  destruct Ha as [Ha | Ha].
  - subst c. destruct Hc as [| d l Hd]; [cbn in Hlen; lia |].
    now apply (Hl d).
  - destruct Hc as [| d l Hd]; [contradiction |].
    destruct l as [| e l].
    + destruct Ha as [-> | []]. now apply (Hr c).
    + apply IH; [exact Ha | cbn; lia].
Qed.

End Sorting.

(** ** The leaderboard projection *)

Section Leaderboard.

Lemma fetchLeaderboardData_success (t : Z) (w : world) (body : string) :
  network w (LEADERBOARD_CSV_URL t) = Body body ->
  fst (fetchLeaderboardData t w) = Normal (leaderboard (parseCSV body))
  /\ CONTESTANTS (snd (fetchLeaderboardData t w))
     = leaderboard (parseCSV body).
Proof. intros H. rewrite fetchLeaderboardData_run, H. now split. Qed.

Lemma leaderboard_perm (data : list object) :
  Permutation (leaderboard data) (map project (filter keep data)).
Proof. apply sort_perm. Qed.

Lemma In_leaderboard (data : list object) (c : contestant) :
  In c (leaderboard data)
  <-> exists row, In row data /\ keep row = true /\ c = project row.
Proof.
  split.
  - intros H. apply (Permutation_in _ (leaderboard_perm data)) in H.
    apply in_map_iff in H as (row & <- & H).
    apply filter_In in H as [H1 H2]. now exists row.
  - intros (row & H1 & H2 & ->).
    apply (Permutation_in _ (Permutation_sym (leaderboard_perm data))).
    apply in_map, filter_In. now split.
Qed.

(** C6, as the code has it.  After a successful refresh in which the
    Current Rank of every kept record parses as an integer, the owned
    collection is in non-decreasing order of [currentRank], and the
    contestants of each rank appear in the order of their records; the
    collection is the returned value and a permutation of the projected
    records. *)
Theorem sorted_after_refresh (t : Z) (w : world) (body : string) :
  network w (LEADERBOARD_CSV_URL t) = Body body ->
  Forall (fun row => parseInt (get row "Current Rank") <> NaN)
    (filter keep (parseCSV body)) ->
  let source := map project (filter keep (parseCSV body)) in
  let result := CONTESTANTS (snd (fetchLeaderboardData t w)) in
  fst (fetchLeaderboardData t w) = Normal result
  /\ StronglySorted rank_le result
  /\ (forall r, filter (has_rank r) result = filter (has_rank r) source)
  /\ Permutation result source.
Proof.
  intros Hnet Hnum source result. subst source result.
  destruct (fetchLeaderboardData_success t w body Hnet) as [-> ->].
  assert (N : Forall numeric (map project (filter keep (parseCSV body)))).
  { apply Forall_map. exact Hnum. }
  split; [reflexivity |].
  split; [now apply sort_sorted |].
  split; [intros r; now apply sort_stable | apply leaderboard_perm].
Qed.

Lemma sorted_after_refresh_witness :
  let w := fresh_world 0 (serving tied_sheet) in
  network w (LEADERBOARD_CSV_URL 0) = Body tied_sheet
  /\ Forall (fun row => parseInt (get row "Current Rank") <> NaN)
       (filter keep (parseCSV tied_sheet))
  /\ StronglySorted rank_le (CONTESTANTS (snd (fetchLeaderboardData 0 w)))
  /\ map codename (CONTESTANTS (snd (fetchLeaderboardData 0 w)))
     = [Str "bob"; Str "ann"; Str "cyd"].
Proof.
  cbv zeta.
  assert (H1 : network (fresh_world 0 (serving tied_sheet))
                 (LEADERBOARD_CSV_URL 0) = Body tied_sheet) by reflexivity.
  assert (H2 : Forall (fun row => parseInt (get row "Current Rank") <> NaN)
                 (filter keep (parseCSV tied_sheet)))
    by (vm_compute; repeat constructor; discriminate).
  split; [exact H1 |]. split; [exact H2 |].
  split; [| vm_compute; reflexivity].
  exact (proj1 (proj2 (sorted_after_refresh 0 _ tied_sheet H1 H2))).
Defined.

(** C6, as stated, fails: a successful refresh of a sheet with ranks 3, x
    and 1 installs the ranks 3, NaN, 1 in that order, which is not sorted;
    no reordering of these three contestants would be. *)
Lemma NaN_rank_breaks_order :
  let w := fresh_world 0 (serving unranked_sheet) in
  let result := CONTESTANTS (snd (fetchLeaderboardData 0 w)) in
  fst (fetchLeaderboardData 0 w) = Normal result
  /\ map currentRank result = [Int 3; NaN; Int 1]
  /\ ~ Sorted rank_le result
  /\ forall l, Permutation l result -> ~ Sorted rank_le l.
Proof.
  cbv zeta.
  assert (E : CONTESTANTS (snd (fetchLeaderboardData 0
                                  (fresh_world 0 (serving unranked_sheet))))
              = [ {| codename := Str "ann"; currentRank := Int 3;
                     previousRank := Int 3; shamed := false |};
                  {| codename := Str "bob"; currentRank := NaN;
                     previousRank := NaN; shamed := false |};
                  {| codename := Str "cyd"; currentRank := Int 1;
                     previousRank := Int 1; shamed := false |} ])
    by (vm_compute; reflexivity).
  assert (P : forall l,
             Permutation l
               (CONTESTANTS (snd (fetchLeaderboardData 0
                                    (fresh_world 0
                                       (serving unranked_sheet))))) ->
             ~ Sorted rank_le l).
  { intros l Hp. rewrite E in Hp.
    apply (not_sorted_with_NaN l
             {| codename := Str "bob"; currentRank := NaN;
                previousRank := NaN; shamed := false |}).
    - apply (Permutation_in _ (Permutation_sym Hp)). right. now left.
    - rewrite (Permutation_length Hp). cbn. lia.
    - reflexivity. }
  split; [vm_compute; reflexivity |].
  split; [rewrite E; reflexivity |].
  split; [apply P; reflexivity | exact P].
Qed.

Lemma or_number_spec (a b : number) :
  or_number a b
  = match a with
    | NaN => b
    | Int z => if z =? 0 then b else Int z
    end.
Proof.
  unfold or_number. destruct a as [| z]; cbn; [reflexivity |].
  now destruct (z =? 0).
Qed.

(** C7, as the code has it.  The contestants of the projection are exactly
    the projections of the kept records, and a record whose Codename or
    Current Rank is empty or absent is not kept.  For a kept record,
    [currentRank] is [parseInt] of Current Rank; [previousRank] equals
    [currentRank] when Previous Rank is absent, empty or otherwise does not
    parse, and also when it parses to zero; in every other case it is the
    integer Previous Rank parses to. *)
Theorem projection_filter (data : list object) :
  (forall c, In c (leaderboard data)
             <-> exists row, In row data /\ keep row = true /\ c = project row)
  /\ Permutation (leaderboard data) (map project (filter keep data))
  /\ (forall row,
        get row "Codename" = Str "" \/ get row "Codename" = Undefined
        \/ get row "Current Rank" = Str ""
        \/ get row "Current Rank" = Undefined ->
        keep row = false)
  /\ (forall row,
        let prev := parseInt (get row "Previous Rank") in
        currentRank (project row) = parseInt (get row "Current Rank")
        /\ (get row "Previous Rank" = Undefined
            \/ get row "Previous Rank" = Str ""
            \/ prev = NaN \/ prev = Int 0 ->
            previousRank (project row) = currentRank (project row))
        /\ (forall z, prev = Int z -> z <> 0 ->
                      previousRank (project row) = Int z)).
Proof.
  split; [apply In_leaderboard |].
  split; [apply leaderboard_perm |].
  split.
  - intros row H. unfold keep, logical_and.
    destruct H as [-> | [-> | [-> | ->]]]; try reflexivity;
      destruct (truthy (get row "Codename")) eqn:E;
      try reflexivity; exact E.
  - intros row prev. subst prev. cbn [project currentRank previousRank].
    rewrite or_number_spec.
    split; [reflexivity |]. split.
    + intros [-> | [-> | [-> | ->]]]; reflexivity.
    + intros z -> Hz. now destruct (Z.eqb_spec z 0).
Qed.

Lemma projection_filter_witness :
  let row := [("Codename", Str "ace"); ("Current Rank", Str "5");
              ("Previous Rank", Str "")] in
  (get row "Previous Rank" = Undefined
   \/ get row "Previous Rank" = Str ""
   \/ parseInt (get row "Previous Rank") = NaN
   \/ parseInt (get row "Previous Rank") = Int 0)
  /\ previousRank (project row) = currentRank (project row).
Proof.
  cbv zeta.
  assert (H : get [("Codename", Str "ace"); ("Current Rank", Str "5");
                   ("Previous Rank", Str "")] "Previous Rank" = Undefined
              \/ get [("Codename", Str "ace"); ("Current Rank", Str "5");
                      ("Previous Rank", Str "")] "Previous Rank" = Str ""
              \/ parseInt (get [("Codename", Str "ace");
                                ("Current Rank", Str "5");
                                ("Previous Rank", Str "")] "Previous Rank")
                 = NaN
              \/ parseInt (get [("Codename", Str "ace");
                                ("Current Rank", Str "5");
                                ("Previous Rank", Str "")] "Previous Rank")
                 = Int 0)
    by (right; left; reflexivity).
  split; [exact H |].
  exact (proj1 (proj2 (proj2 (proj2 (proj2 (projection_filter [])))
                         _)) H).
Defined.

(** C7, as stated, fails: a Previous Rank of 0 is numeric and parses to the
    integer 0, yet the contestant gets the current rank, 5, as
    [previousRank]. *)
Lemma zero_previous_rank_falls_back :
  parseCSV zero_previous_sheet
  = [ [("Codename", Str "ace"); ("Current Rank", Str "5");
       ("Previous Rank", Str "0")] ]
  /\ parseInt (Str "0") = Int 0
  /\ leaderboard (parseCSV zero_previous_sheet)
     = [ {| codename := Str "ace"; currentRank := Int 5;
            previousRank := Int 5; shamed := false |} ]
  /\ map previousRank (leaderboard (parseCSV zero_previous_sheet))
     <> [parseInt (Str "0")].
Proof.
  repeat split; try (vm_compute; reflexivity).
  vm_compute. discriminate.
Qed.

(** C10, as the code has it.  A record whose Codename is non-empty and
    whose Current Rank is non-empty but does not parse as an integer is
    kept: its projection, with [currentRank] equal to [NaN], is in the
    resulting sequence, and in the owned collection after a successful
    refresh.  The filter looks at the presence of both fields only. *)
Theorem unparseable_rank_kept (data : list object) (row : object)
  (name rank : string) :
  In row data ->
  get row "Codename" = Str name -> name <> "" ->
  get row "Current Rank" = Str rank -> rank <> "" ->
  parseInt (Str rank) = NaN ->
  keep row = true
  /\ In (project row) (leaderboard data)
  /\ currentRank (project row) = NaN
  /\ (forall t w body,
        network w (LEADERBOARD_CSV_URL t) = Body body ->
        parseCSV body = data ->
        In (project row) (CONTESTANTS (snd (fetchLeaderboardData t w)))).
Proof.
  intros Hin Hname Hne Hrank Hre Hnan.
  assert (K : keep row = true).
  { apply String.eqb_neq in Hne, Hre.
    unfold keep, logical_and. rewrite Hname, Hrank.
    change (truthy (Str name)) with (negb (name =? "")%string).
    rewrite Hne. cbn [negb].
    change (truthy (Str rank)) with (negb (rank =? "")%string).
    now rewrite Hre. }
  assert (I : In (project row) (leaderboard data))
    by (apply In_leaderboard; now exists row).
  split; [exact K |]. split; [exact I |].
  split; [cbn [project currentRank]; rewrite Hrank; exact Hnan |].
  intros t w body Hnet <-.
  now destruct (fetchLeaderboardData_success t w body Hnet) as [_ ->].
Qed.

Lemma unparseable_rank_kept_witness :
  let row := [("Codename", Str "bob"); ("Current Rank", Str "x")] in
  In row (parseCSV unranked_sheet)
  /\ parseInt (Str "x") = NaN
  /\ In (project row) (leaderboard (parseCSV unranked_sheet))
  /\ currentRank (project row) = NaN.
Proof.
  cbv zeta.
  set (row := [("Codename", Str "bob"); ("Current Rank", Str "x")]).
  assert (H1 : In row (parseCSV unranked_sheet))
    by (vm_compute; right; left; reflexivity).
  assert (H2 : parseInt (Str "x") = NaN) by (vm_compute; reflexivity).
  assert (H3 : "bob" <> "") by discriminate.
  assert (H4 : "x" <> "") by discriminate.
  assert (H5 : get row "Codename" = Str "bob") by (vm_compute; reflexivity).
  assert (H6 : get row "Current Rank" = Str "x")
    by (vm_compute; reflexivity).
  pose proof (unparseable_rank_kept (parseCSV unranked_sheet) row
                "bob" "x" H1 H5 H3 H6 H4 H2) as (_ & I & N & _).
  exact (conj H1 (conj H2 (conj I N))).
Defined.

(** C10, as stated, fails: a record whose Current Rank is non-empty and
    does not parse is still excluded when its Codename is empty. *)
Lemma nameless_record_excluded :
  parseCSV nameless_sheet
  = [ [("Codename", Str ""); ("Current Rank", Str "abc")] ]
  /\ parseInt (Str "abc") = NaN
  /\ leaderboard (parseCSV nameless_sheet) = [].
Proof. repeat split; vm_compute; reflexivity. Qed.

End Leaderboard.

(** ** More on the two refresh functions *)

Section RefreshFrames.

Lemma network_forEach_config_row (data : list object) (w : world) :
  network (snd (forEach config_row data w)) = network w.
Proof.
  revert w. induction data as [| row data IH]; intros w; [reflexivity |].
  cbn [forEach]. unfold bind at 1.
  assert (H : fst (config_row row w) = Normal tt
              /\ network (snd (config_row row w)) = network w).
  { unfold config_row.
    destruct (strict_eq _ _); [now split |].
    destruct (strict_eq _ _); now split. }
  destruct (config_row row w) as [r w1]. cbn in H. destruct H as [-> H].
  now rewrite IH.
Qed.

Lemma fetchLeaderboardData_frame (t : Z) (w : world) :
  CONFIG (snd (fetchLeaderboardData t w)) = CONFIG w
  /\ network (snd (fetchLeaderboardData t w)) = network w
  /\ clock (snd (fetchLeaderboardData t w)) = clock w.
Proof.
  rewrite fetchLeaderboardData_run.
  destruct (network w (LEADERBOARD_CSV_URL t)); now repeat split.
Qed.

Lemma fetchConfigData_frame (t : Z) (w : world) :
  CONTESTANTS (snd (fetchConfigData t w)) = CONTESTANTS w
  /\ network (snd (fetchConfigData t w)) = network w.
Proof.
  rewrite fetchConfigData_run.
  destruct (network w (CONFIG_CSV_URL t)) as [| | body];
    try (now split).
  cbn [snd]. split.
  - now destruct (forEach_config_row_run (parseCSV body)
                    (log_request (CONFIG_CSV_URL t) w)) as [_ ->].
  - now rewrite network_forEach_config_row.
Qed.

Lemma CONFIG_fetchConfigData (t : Z) (w : world) :
  CONFIG (snd (fetchConfigData t w))
  = match network w (CONFIG_CSV_URL t) with
    | Body body => fold_left update_config (parseCSV body) (CONFIG w)
    | _ => CONFIG w
    end.
Proof.
  rewrite fetchConfigData_run.
  destruct (network w (CONFIG_CSV_URL t)) as [| | body]; try reflexivity.
  cbn [snd].
  now destruct (forEach_config_row_run (parseCSV body)
                  (log_request (CONFIG_CSV_URL t) w)) as [-> _].
Qed.

Lemma CONTESTANTS_fetchLeaderboardData (t : Z) (w : world) :
  CONTESTANTS (snd (fetchLeaderboardData t w))
  = match network w (LEADERBOARD_CSV_URL t) with
    | Body body => leaderboard (parseCSV body)
    | _ => CONTESTANTS w
    end.
Proof.
  rewrite fetchLeaderboardData_run.
  destruct (network w (LEADERBOARD_CSV_URL t)); reflexivity.
Qed.

(** X1.  Whatever the network answers, neither [fetchLeaderboardData] nor
    [fetchConfigData] lets an exception escape: both complete normally, and
    what [fetchConfigData] returns is [CONFIG] as it stands when the call
    ends. *)
Theorem refresh_never_throws (t : Z) (w : world) :
  (exists l, fst (fetchLeaderboardData t w) = Normal l)
  /\ fst (fetchConfigData t w) = Normal (CONFIG (snd (fetchConfigData t w))).
Proof.
  split; [apply fetchLeaderboardData_returns |].
  rewrite fetchConfigData_run.
  destruct (network w (CONFIG_CSV_URL t)); reflexivity.
Qed.

(** X2.  When the configuration refresh fails (the fetch rejects, or reading
    the body does), [fetchConfigData] returns [CONFIG] unchanged, leaves
    [CONTESTANTS] unchanged and logs one line on the console. *)
Theorem fetchConfigData_keeps_on_failure (t : Z) (w : world) :
  failing (network w (CONFIG_CSV_URL t)) ->
  fst (fetchConfigData t w) = Normal (CONFIG w)
  /\ CONFIG (snd (fetchConfigData t w)) = CONFIG w
  /\ CONTESTANTS (snd (fetchConfigData t w)) = CONTESTANTS w
  /\ List.length (console (snd (fetchConfigData t w)))
     = S (List.length (console w)).
Proof.
  intros [H | H]; rewrite fetchConfigData_run, H; repeat split.
Qed.

Lemma fetchConfigData_keeps_on_failure_witness :
  failing (network configured_offline_world (CONFIG_CSV_URL 0))
  /\ fst (fetchConfigData 0 configured_offline_world)
     = Normal {| deadline := Str "2025-12-31"; currentWeek := Num (Int 7) |}.
Proof.
  assert (H : failing (network configured_offline_world (CONFIG_CSV_URL 0)))
    by (left; reflexivity).
  split; [exact H |].
  exact (proj1 (fetchConfigData_keeps_on_failure 0 configured_offline_world
                  H)).
Defined.

(** X3.  The two refreshes started together by [init] write disjoint parts
    of the state: [fetchLeaderboardData] never changes [CONFIG],
    [fetchConfigData] never changes [CONTESTANTS], and whichever of the two
    completes first, the page ends with the same [CONTESTANTS] and the same
    [CONFIG]. *)
Theorem refreshes_commute (t : Z) (w : world) :
  CONFIG (snd (fetchLeaderboardData t w)) = CONFIG w
  /\ CONTESTANTS (snd (fetchConfigData t w)) = CONTESTANTS w
  /\ CONTESTANTS (snd (fetchConfigData t (snd (fetchLeaderboardData t w))))
     = CONTESTANTS (snd (fetchLeaderboardData t (snd (fetchConfigData t w))))
  /\ CONFIG (snd (fetchConfigData t (snd (fetchLeaderboardData t w))))
     = CONFIG (snd (fetchLeaderboardData t (snd (fetchConfigData t w)))).
Proof.
  destruct (fetchLeaderboardData_frame t w) as (Lc & Ln & _).
  destruct (fetchConfigData_frame t w) as (Cc & Cn).
  split; [exact Lc |]. split; [exact Cc |]. split.
  - destruct (fetchConfigData_frame t (snd (fetchLeaderboardData t w)))
      as [-> _].
    now rewrite !CONTESTANTS_fetchLeaderboardData, Cn, Cc.
  - destruct (fetchLeaderboardData_frame t (snd (fetchConfigData t w)))
      as [-> _].
    now rewrite !CONFIG_fetchConfigData, Ln, Lc.
Qed.

(** X4.  A successful leaderboard refresh replaces the collection wholesale:
    what it installs depends on the fetched text only, not on what the page
    held before, so that refreshing again from the same text installs the
    same collection. *)
Theorem refresh_replaces_collection (t : Z) (w w' : world) (body : string) :
  network w (LEADERBOARD_CSV_URL t) = Body body ->
  network w' (LEADERBOARD_CSV_URL t) = Body body ->
  CONTESTANTS (snd (fetchLeaderboardData t w))
  = CONTESTANTS (snd (fetchLeaderboardData t w'))
  /\ fst (fetchLeaderboardData t w) = fst (fetchLeaderboardData t w')
  /\ CONTESTANTS (snd (fetchLeaderboardData t
                         (snd (fetchLeaderboardData t w))))
     = CONTESTANTS (snd (fetchLeaderboardData t w)).
Proof.
  intros H H'.
  destruct (fetchLeaderboardData_frame t w) as (_ & Hn & _).
  destruct (fetchLeaderboardData_success t w body H) as [R1 C1].
  destruct (fetchLeaderboardData_success t w' body H') as [R2 C2].
  assert (H2 : network (snd (fetchLeaderboardData t w))
                 (LEADERBOARD_CSV_URL t) = Body body) by now rewrite Hn.
  destruct (fetchLeaderboardData_success t _ body H2) as [_ C3].
  rewrite R1, R2, C3, C1, C2. now repeat split.
Qed.

Lemma refresh_replaces_collection_witness :
  let w := fresh_world 0 (serving tied_sheet) in
  let w' := later 300000 (serving tied_sheet)
              (snd (fetchLeaderboardData 0
                      (fresh_world 0 (serving one_contestant_sheet)))) in
  network w (LEADERBOARD_CSV_URL 0) = Body tied_sheet
  /\ network w' (LEADERBOARD_CSV_URL 0) = Body tied_sheet
  /\ CONTESTANTS (snd (fetchLeaderboardData 0 w))
     = CONTESTANTS (snd (fetchLeaderboardData 0 w')).
Proof.
  cbv zeta.
  assert (H : network (fresh_world 0 (serving tied_sheet))
                (LEADERBOARD_CSV_URL 0) = Body tied_sheet) by reflexivity.
  assert (H' : network
                 (later 300000 (serving tied_sheet)
                    (snd (fetchLeaderboardData 0
                            (fresh_world 0 (serving one_contestant_sheet)))))
                 (LEADERBOARD_CSV_URL 0) = Body tied_sheet) by reflexivity.
  split; [exact H |]. split; [exact H' |].
  exact (proj1 (refresh_replaces_collection 0 _ _ tied_sheet H H')).
Defined.

Lemma fold_update_config_nil_keys (data : list object) (c : config) :
  (forall r, In r data -> key_of r <> Str "deadline") ->
  (forall r, In r data -> key_of r <> Str "current_week") ->
  fold_left update_config data c = c.
Proof.
  revert c. induction data as [| r data IH]; intros c H1 H2; [reflexivity |].
  cbn [fold_left]. rewrite update_config_ignored.
  - apply IH; intros r' Hr'; [apply H1 | apply H2]; now right.
  - apply H1. now left.
  - apply H2. now left.
Qed.

(** X5.  The configuration is updated field by field: after a successful
    refresh, a field whose key no record of the sheet carries keeps the
    value it had, and a sheet with no recognised key at all (in particular
    an empty or header-only one) leaves [CONFIG] as it was. *)
Theorem config_fields_kept (t : Z) (w : world) (body : string) :
  network w (CONFIG_CSV_URL t) = Body body ->
  let after := CONFIG (snd (fetchConfigData t w)) in
  ((forall r, In r (parseCSV body) -> key_of r <> Str "deadline") ->
   deadline after = deadline (CONFIG w))
  /\ ((forall r, In r (parseCSV body) -> key_of r <> Str "current_week") ->
      currentWeek after = currentWeek (CONFIG w))
  /\ ((List.length (split LF (trim body)) < 2)%nat -> after = CONFIG w).
Proof.
  intros H after. subst after. rewrite CONFIG_fetchConfigData, H.
  split; [| split].
  - apply fold_update_config_deadline.
  - apply fold_update_config_currentWeek.
  - intros Hn. rewrite parseCSV_unfold.
    destruct (Nat.ltb_spec (List.length (split LF (trim body))) 2)
      as [_ | Hge]; [reflexivity | lia].
Qed.

Lemma config_fields_kept_witness :
  network week_seven_world (CONFIG_CSV_URL 0) = Body bad_week_sheet
  /\ (forall r, In r (parseCSV bad_week_sheet) -> key_of r <> Str "deadline")
  /\ deadline (CONFIG (snd (fetchConfigData 0 week_seven_world)))
     = Str "2025-12-31".
Proof.
  assert (H : network week_seven_world (CONFIG_CSV_URL 0)
              = Body bad_week_sheet) by reflexivity.
  assert (K : forall r, In r (parseCSV bad_week_sheet) ->
                        key_of r <> Str "deadline").
  { assert (E : parseCSV bad_week_sheet
                = [ [("key", Str "current_week"); ("value", Str "soon")] ])
      by (vm_compute; reflexivity).
    rewrite E. intros r [<- | []]. vm_compute. discriminate. }
  split; [exact H |]. split; [exact K |].
  exact (proj1 (config_fields_kept 0 week_seven_world bad_week_sheet H) K).
Defined.

End RefreshFrames.

(** ** More on the records of [parseCSV] *)

Section RecordContents.

Lemma occurs_In (c : ascii) (s : string) :
  occurs c s = true <-> In c (list_ascii_of_string s).
Proof.
  induction s as [| a s IH]; cbn; [split; [discriminate | tauto] |].
  rewrite orb_true_iff, IH, Ascii.eqb_eq. tauto.
Qed.

Lemma occurs_app (c : ascii) (a b : string) :
  occurs c (a ++ b) = occurs c a || occurs c b.
Proof.
  induction a as [| x a IH]; cbn; [reflexivity |].
  now rewrite IH, orb_assoc.
Qed.

Lemma occurs_reverse (c : ascii) (s : string) :
  occurs c (reverse s) = true -> occurs c s = true.
Proof.
  unfold reverse. rewrite !occurs_In, list_ascii_of_string_of_list_ascii.
  intros H. now apply in_rev.
Qed.

Lemma occurs_drop (c : ascii) (n : nat) (s : string) :
  occurs c (drop n s) = true -> occurs c s = true.
Proof.
  revert s. induction n as [| n IH]; intros s; [trivial |].
  destruct s as [| a s]; cbn; [trivial |].
  intros H. apply IH in H. rewrite H. apply orb_true_r.
Qed.

Lemma occurs_strip (c : ascii) (fuel : nat) (tbl : list string)
  (s : string) :
  occurs c (strip fuel tbl s) = true -> occurs c s = true.
Proof.
  revert s. induction fuel as [| fuel IH]; intros s; cbn; [trivial |].
  destruct (find _ tbl) as [p |]; [| trivial].
  intros H. apply IH in H. now apply occurs_drop in H.
Qed.

(** [trim] only removes characters. *)
Lemma occurs_trim (c : ascii) (s : string) :
  occurs c (trim s) = true -> occurs c s = true.
Proof.
  unfold trim, trimEnd, trimStart. intros H.
  apply occurs_reverse, occurs_strip, occurs_reverse, occurs_strip in H.
  exact H.
Qed.

Lemma not_occurs_trim (c : ascii) (s : string) :
  occurs c s = false -> occurs c (trim s) = false.
Proof.
  intros H. destruct (occurs c (trim s)) eqn:E; [| reflexivity].
  apply occurs_trim in E. congruence.
Qed.

Lemma occurs_remove_all (c : ascii) (s : string) :
  occurs c (remove_all c s) = false.
Proof.
  induction s as [| a s IH]; cbn; [reflexivity |].
  destruct (Ascii.eqb a c) eqn:E; [exact IH |].
  cbn. now rewrite E, IH.
Qed.

Lemma scan_plain_values (line : string) (vals : list value)
  (current : string) (inQuotes : bool) :
  occurs DQUOTE current = false ->
  forallb plain vals = true ->
  forallb plain (scan line vals current inQuotes) = true.
Proof.
  revert vals current inQuotes.
  induction line as [| c line IH]; intros vals current inQuotes Hc Hv.
  - cbn [scan]. rewrite forallb_app, Hv. cbn.
    now rewrite not_occurs_trim.
  - cbn [scan]. destruct (Ascii.eqb c DQUOTE) eqn:Eq; [now apply IH |].
    destruct (Ascii.eqb c COMMA && negb inQuotes).
    + apply IH; [reflexivity |].
      rewrite forallb_app, Hv. cbn. now rewrite not_occurs_trim.
    + apply IH; [| exact Hv].
      rewrite occurs_app, Hc. cbn. now rewrite Eq.
Qed.

Lemma plain_cell_value (vals : list value) (j : nat) :
  forallb plain vals = true -> plain (cell_value vals j) = true.
Proof.
  intros H. unfold cell_value, logical_or, at_index.
  destruct (nth_error vals j) as [v |] eqn:E.
  - rewrite (nth_error_nth _ _ _ E).
    rewrite forallb_forall in H. apply nth_error_In, H in E.
    destruct (truthy v); [exact E | reflexivity].
  - apply nth_error_None in E. now rewrite nth_overflow.
Qed.

Lemma In_replace (o : object) (k : string) (v : value) (k' : string)
  (v' : value) :
  In (k', v') (replace o k v) -> In (k', v') o \/ (k', v') = (k, v).
Proof.
  induction o as [| [k0 v0] o IH]; cbn [replace]; [tauto |].
  destruct (String.eqb_spec k0 k) as [-> | _]; cbn [In].
  - intros [H | H]; [now right | left; now right].
  - intros [H | H]; [left; now left |].
    destruct (IH H) as [H' | H']; [left; now right | now right].
Qed.

Lemma In_set (o : object) (k : string) (v : value) (k' : string)
  (v' : value) :
  In (k', v') (set o k v) -> In (k', v') o \/ (k', v') = (k, v).
Proof.
  unfold set. destruct (k =? "__proto__")%string; [tauto |].
  destruct (has_key o k); [apply In_replace |].
  rewrite in_app_iff. cbn [In]. intuition congruence.
Qed.

Lemma In_fill (headers : list string) (i : nat) (vals : list value)
  (row : object) (k : string) (v : value) :
  In (k, v) (fill headers i vals row) ->
  In (k, v) row
  \/ exists j, In k headers /\ v = cell_value vals j.
Proof.
  revert i row. induction headers as [| h headers IH]; intros i row;
    cbn [fill]; [tauto |].
  intros H. apply IH in H as [H | (j & Hk & Hv)].
  - apply In_set in H as [H | [= -> ->]]; [now left |].
    right. exists i. split; [now left | reflexivity].
  - right. exists j. split; [now right | exact Hv].
Qed.

(** X6.  Every entry of every record [parseCSV] returns has a header token
    as its key and a string as its value, never [undefined], and neither the
    key nor the value contains a double quote. *)
Theorem records_hold_plain_strings (csvText : string) (row : object)
  (k : string) (v : value) :
  In row (parseCSV csvText) ->
  In (k, v) row ->
  In k (parse_headers (hd "" (split LF (trim csvText))))
  /\ occurs DQUOTE k = false
  /\ exists s, v = Str s /\ occurs DQUOTE s = false.
Proof.
  rewrite parseCSV_unfold.
  destruct (List.length (split LF (trim csvText)) <? 2)%nat; [intros [] |].
  intros Hrow Hkv. apply in_map_iff in Hrow as (line & <- & _).
  unfold parse_line in Hkv.
  apply In_fill in Hkv as [[] | (j & Hk & ->)].
  split; [exact Hk |]. split.
  - unfold parse_headers in Hk. apply in_map_iff in Hk as (h & <- & _).
    apply occurs_remove_all.
  - assert (P : plain (cell_value (scan line [] "" false) j) = true)
      by (apply plain_cell_value, scan_plain_values; reflexivity).
    destruct (cell_value (scan line [] "" false) j) as [| | s |];
      try discriminate.
    exists s. split; [reflexivity |]. now apply negb_true_iff.
Qed.

Lemma records_hold_plain_strings_witness :
  let row := [("Codename", Str "ace"); ("Current Rank", Str "1")] in
  In row (parseCSV one_contestant_sheet)
  /\ In ("Current Rank", Str "1") row
  /\ occurs DQUOTE "Current Rank" = false.
Proof.
  cbv zeta.
  set (row := [("Codename", Str "ace"); ("Current Rank", Str "1")]).
  assert (H1 : In row (parseCSV one_contestant_sheet))
    by (vm_compute; left; reflexivity).
  assert (H2 : In ("Current Rank", Str "1") row) by (right; left; reflexivity).
  split; [exact H1 |]. split; [exact H2 |].
  exact (proj1 (proj2 (records_hold_plain_strings one_contestant_sheet row
                         "Current Rank" (Str "1") H1 H2))).
Defined.

Lemma get_replace_same (o : object) (k : string) (v : value) :
  has_key o k = true -> get (replace o k v) k = v.
Proof.
  induction o as [| [k0 v0] o IH]; cbn [has_key replace get];
    [discriminate |].
  destruct (String.eqb_spec k0 k) as [-> | Hne]; cbn [orb get].
  - now rewrite String.eqb_refl.
  - intros H. apply String.eqb_neq in Hne. rewrite Hne. now apply IH.
Qed.

Lemma get_app_new (o : object) (k : string) (v : value) :
  has_key o k = false -> get (o ++ [(k, v)])%list k = v.
Proof.
  induction o as [| [k0 v0] o IH]; cbn [has_key app get].
  - now rewrite String.eqb_refl.
  - intros H. apply orb_false_elim in H as [-> H]. now apply IH.
Qed.

Lemma get_set_same (o : object) (k : string) (v : value) :
  k <> "__proto__" -> get (set o k v) k = v.
Proof.
  intros H. apply String.eqb_neq in H. unfold set. rewrite H.
  destruct (has_key o k) eqn:E;
    [now apply get_replace_same | now apply get_app_new].
Qed.

Lemma get_replace_other (o : object) (k k' : string) (v : value) :
  k <> k' -> get (replace o k v) k' = get o k'.
Proof.
  intros Hne. induction o as [| [k0 v0] o IH]; [reflexivity |].
  cbn [replace]. destruct (String.eqb_spec k0 k) as [-> | _]; cbn [get].
  - apply String.eqb_neq in Hne. now rewrite Hne.
  - now rewrite IH.
Qed.

Lemma get_set_other (o : object) (k k' : string) (v : value) :
  k <> k' -> get (set o k v) k' = get o k'.
Proof.
  intros Hne. unfold set. destruct (k =? "__proto__")%string; [reflexivity |].
  destruct (has_key o k); [now apply get_replace_other |].
  induction o as [| [k0 v0] o IH]; cbn [app get].
  - apply String.eqb_neq in Hne. now rewrite Hne.
  - now rewrite IH.
Qed.

Lemma get_fill_other (headers : list string) (i : nat) (vals : list value)
  (row : object) (k : string) :
  ~ In k headers -> get (fill headers i vals row) k = get row k.
Proof.
  revert i row. induction headers as [| h headers IH]; intros i row Hk;
    [reflexivity |].
  cbn [fill]. rewrite IH by (intros H; apply Hk; now right).
  apply get_set_other. intros ->. apply Hk. now left.
Qed.

Lemma get_fill_last (headers : list string) (i : nat) (vals : list value)
  (row : object) (j : nat) (k : string) :
  nth_error headers j = Some k ->
  k <> "__proto__" ->
  ~ In k (skipn (S j) headers) ->
  get (fill headers i vals row) k = cell_value vals (i + j).
Proof.
  revert i row j. induction headers as [| h headers IH];
    intros i row j Hj Hp Hlast; [now destruct j |].
  destruct j as [| j]; cbn [nth_error skipn] in Hj, Hlast; cbn [fill].
  - injection Hj as ->.
    rewrite get_fill_other by exact Hlast.
    rewrite get_set_same by exact Hp. now rewrite Nat.add_0_r.
  - rewrite (IH (S i) _ j Hj Hp Hlast). f_equal. lia.
Qed.




Lemma split_cons (sep : ascii) (s : string) :
  exists h t, split sep s = h :: t.
Proof.
  pose proof (length_split sep s) as H.
  destruct (split sep s) as [| h t]; [discriminate | now exists h, t].
Qed.

Lemma scan_unquoted (line : string) (vals : list value) (current : string) :
  occurs DQUOTE line = false ->
  scan line vals current false
  = (vals ++ match split COMMA line with
             | h :: t =>
                 Str (trim (current ++ h))
                 :: map (fun s => Str (trim s)) t
             | [] => []
             end)%list.
Proof.
  revert vals current. induction line as [| c line IH]; intros vals current.
  - intros _. cbn [scan split map]. now rewrite append_nil_r.
  - cbn [occurs]. intros H. apply orb_false_elim in H as [Hc Hl].
    cbn [scan split]. rewrite Hc.
    destruct (Ascii.eqb c COMMA) eqn:E; cbn [andb negb].
    + rewrite IH by exact Hl. rewrite <- app_assoc. cbn [app].
      rewrite append_nil_r.
      destruct (split_cons COMMA line) as (h & t & ->). reflexivity.
    + rewrite IH by exact Hl.
      destruct (split_cons COMMA line) as (h & t & ->).
      now rewrite append_assoc.
Qed.

(** X8.  On a line without double quotes the field scanner and the plain
    split at commas used for the header agree: the values of the line are
    the trimmed pieces between its commas, one more than it has commas. *)
Theorem scan_without_quotes (line : string) :
  occurs DQUOTE line = false ->
  scan line [] "" false = map (fun s => Str (trim s)) (split COMMA line)
  /\ List.length (scan line [] "" false) = S (count COMMA line).
Proof.
  intros H. rewrite scan_unquoted by exact H.
  destruct (split_cons COMMA line) as (h & t & E).
  pose proof (length_split COMMA line) as L.
  rewrite E in *. cbn [app map append]. split; [reflexivity |].
  cbn [List.length] in *. now rewrite length_map.
Qed.

Lemma scan_without_quotes_witness :
  occurs DQUOTE "ace, 4 ,,TRUE" = false
  /\ scan "ace, 4 ,,TRUE" [] "" false
     = [Str "ace"; Str "4"; Str ""; Str "TRUE"].
Proof.
  assert (H : occurs DQUOTE "ace, 4 ,,TRUE" = false) by reflexivity.
  split; [exact H |].
  refine (eq_trans (proj1 (scan_without_quotes "ace, 4 ,,TRUE" H)) _).
  vm_compute. reflexivity.
Defined.

Lemma fill_distinct (headers : list string) (i : nat) (vals : list value)
  (row : object) :
  NoDup headers ->
  ~ In "__proto__" headers ->
  (forall k, In k headers -> ~ In k (keys row)) ->
  fill headers i vals row
  = (row ++ map (fun p => (fst p, cell_value vals (snd p)))
              (combine headers (seq i (List.length headers))))%list.
Proof.
  revert i row. induction headers as [| h headers IH];
    intros i row Hnd Hp Hfresh.
  - cbn. now rewrite app_nil_r.
  - inversion Hnd as [| ? ? Hh Hnd']; subst.
    assert (E : set row h (logical_or (at_index vals i) (Str ""))
                = (row ++ [(h, cell_value vals i)])%list).
    { unfold set.
      destruct (String.eqb_spec h "__proto__") as [-> | _].
      - exfalso. apply Hp. now left.
      - destruct (has_key row h) eqn:K; [| reflexivity].
        apply has_key_In in K. exfalso.
        apply (Hfresh h); [now left | exact K]. }
    cbn [fill]. rewrite E, IH.
    + rewrite <- app_assoc. reflexivity.
    + exact Hnd'.
    + intros H. apply Hp. now right.
    + intros k Hin. unfold keys. rewrite map_app, in_app_iff. cbn [map In fst].
      intros [H | [<- | []]]; [| contradiction].
      apply (Hfresh k); [now right | exact H].
Qed.

Lemma values_named (o : object) :
  (forall kv, In kv o -> array_index (fst kv) = None) ->
  values o = map snd o.
Proof.
  intros H. unfold values.
  assert (I : index_properties o = []).
  { induction o as [| kv o IH]; [reflexivity |].
    cbn [index_properties fold_right].
    rewrite (H kv (or_introl eq_refl)).
    apply IH. intros kv' Hin. apply H. now right. }
  assert (N : named_properties o = o).
  { induction o as [| kv o IH]; [reflexivity |].
    cbn [named_properties filter].
    rewrite (H kv (or_introl eq_refl)). f_equal.
    apply IH; [intros kv' Hin; apply H; now right |].
    cbn [index_properties fold_right] in I.
    now rewrite (H kv (or_introl eq_refl)) in I. }
  now rewrite I, N.
Qed.

(** X9.  When the header tokens are pairwise distinct, none is [__proto__]
    and none is an array index (a canonical numeral below 2^32 - 1),
    [Object.values] lists the values of a record in column order; in
    particular the key and the value [fetchConfigData] reads in a record are
    the cells of its first and second columns. *)
Theorem values_in_column_order (headers : list string) (line : string) :
  NoDup headers ->
  ~ In "__proto__" headers ->
  (forall h, In h headers -> array_index h = None) ->
  let vals := scan line [] "" false in
  let row := parse_line headers line in
  values row = map (cell_value vals) (seq 0 (List.length headers))
  /\ ((2 <= List.length headers)%nat ->
      key_of row = cell_value vals 0 /\ value_of row = cell_value vals 1).
Proof.
  intros Hnd Hp Hidx vals row. subst vals row. unfold parse_line.
  rewrite fill_distinct by (auto; intros k _ []). cbn [app].
  assert (V : values
                (map (fun p => (fst p,
                                cell_value (scan line [] "" false) (snd p)))
                   (combine headers (seq 0 (List.length headers))))
              = map (cell_value (scan line [] "" false))
                  (seq 0 (List.length headers))).
  { rewrite values_named.
    - rewrite map_map. cbn [snd]. rewrite <- map_map.
      f_equal. generalize 0%nat.
      induction headers as [| h hs IH]; intros n; [reflexivity |].
      cbn [List.length seq combine map snd]. f_equal.
      apply IH.
      + now inversion Hnd.
      + intros H. apply Hp. now right.
      + intros h' Hh'. apply Hidx. now right.
    - intros kv Hin. apply in_map_iff in Hin as ([h n] & <- & Hin).
      apply in_combine_l in Hin. cbn [fst]. now apply Hidx. }
  split; [exact V |].
  intros Hlen. unfold key_of, value_of. rewrite V.
  destruct headers as [| h1 [| h2 hs]]; cbn [List.length] in Hlen; try lia.
  now split.
Qed.

Lemma values_in_column_order_witness :
  NoDup ["key"; "value"]
  /\ ~ In "__proto__" ["key"; "value"]
  /\ (forall h, In h ["key"; "value"] -> array_index h = None)
  /\ key_of (parse_line ["key"; "value"] "deadline,2025-12-31")
     = cell_value (scan "deadline,2025-12-31" [] "" false) 0.
Proof.
  assert (H1 : NoDup ["key"; "value"]).
  { repeat constructor; simpl; intuition discriminate. }
  assert (H2 : ~ In "__proto__" ["key"; "value"])
    by (simpl; intuition discriminate).
  assert (H3 : forall h, In h ["key"; "value"] -> array_index h = None).
  { intros h [<- | [<- | []]]; vm_compute; reflexivity. }
  assert (H4 : (2 <= List.length ["key"; "value"])%nat) by (simpl; lia).
  split; [exact H1 |]. split; [exact H2 |]. split; [exact H3 |].
  exact (proj1 (proj2 (values_in_column_order ["key"; "value"]
                         "deadline,2025-12-31" H1 H2 H3) H4)).
Defined.

(** X10.  A header token that is an array index is enumerated before the
    other keys.  With two columns, when the second header token is an array
    index and the first is not, [Object.values] lists the second column
    first: [fetchConfigData] then takes the cell of the second column as the
    key and the cell of the first as the value. *)
Theorem index_header_swaps_columns (a b : string) (n : Z) (line : string) :
  a <> "__proto__" ->
  array_index a = None ->
  array_index b = Some n ->
  let vals := scan line [] "" false in
  let row := parse_line [a; b] line in
  values row = [cell_value vals 1; cell_value vals 0]
  /\ key_of row = cell_value vals 1
  /\ value_of row = cell_value vals 0.
Proof.
  intros Hp Ha Hb vals row. subst vals row.
  assert (Hab : a <> b) by (intros ->; congruence).
  assert (Hbp : b <> "__proto__").
  { intros ->. vm_compute in Hb. discriminate. }
  assert (E : parse_line [a; b] line
              = [(a, cell_value (scan line [] "" false) 0);
                 (b, cell_value (scan line [] "" false) 1)]).
  { unfold parse_line. rewrite fill_distinct.
    - reflexivity.
    - repeat constructor; simpl; intuition.
    - simpl. intuition.
    - intros k _ []. }
  assert (V : values (parse_line [a; b] line)
              = [cell_value (scan line [] "" false) 1;
                 cell_value (scan line [] "" false) 0]).
  { rewrite E. unfold values, index_properties, named_properties.
    cbn [fold_right filter fst snd]. rewrite Ha, Hb. reflexivity. }
  unfold key_of, value_of. rewrite V. now repeat split.
Qed.

Lemma index_header_swaps_columns_witness :
  "current_week" <> "__proto__"
  /\ array_index "current_week" = None
  /\ array_index "7" = Some 7
  /\ key_of (parse_line ["current_week"; "7"] "deadline,2025-12-31")
     = Str "2025-12-31".
Proof.
  assert (H1 : "current_week" <> "__proto__") by discriminate.
  assert (H2 : array_index "current_week" = None)
    by (vm_compute; reflexivity).
  assert (H3 : array_index "7" = Some 7) by (vm_compute; reflexivity).
  split; [exact H1 |]. split; [exact H2 |]. split; [exact H3 |].
  refine (eq_trans (proj1 (proj2 (index_header_swaps_columns
                                    "current_week" "7" 7
                                    "deadline,2025-12-31" H1 H2 H3))) _).
  vm_compute. reflexivity.
Defined.

Lemma In_insert_index (p q : Z * value) (l : list (Z * value)) :
  In q (insert_index p l) -> q = p \/ In q l.
Proof.
  induction l as [| x l IH]; cbn [insert_index In]; [intuition |].
  destruct (fst p <=? fst x); cbn [In]; intuition.
Qed.

Lemma In_values (o : object) (v : value) :
  In v (values o) -> exists k, In (k, v) o.
Proof.
  unfold values. rewrite in_app_iff. intros [H | H].
  - apply in_map_iff in H as ([n v'] & E & H). cbn in E. subst v'.
    induction o as [| [k0 v0] o IH]; [contradiction |].
    cbn [index_properties fold_right fst snd] in H.
    destruct (array_index k0) as [n0 |].
    + apply In_insert_index in H as [[= _ ->] | H].
      * exists k0. now left.
      * destruct (IH H) as (k & Hk). exists k. now right.
    + destruct (IH H) as (k & Hk). exists k. now right.
  - apply in_map_iff in H as ([k v'] & E & H). cbn in E. subst v'.
    apply filter_In in H as [H _]. now exists k.
Qed.

Lemma get_In (o : object) (k : string) :
  get o k = Undefined \/ In (k, get o k) o.
Proof.
  induction o as [| [k0 v0] o IH]; cbn [get]; [now left |].
  destruct (String.eqb_spec k0 k) as [-> | _]; [right; now left |].
  destruct IH as [H | H]; [now left | right; now right].
Qed.

(** X15.  A data line all of whose fields are empty (a blank line, or a
    line of commas and spaces) gives a record whose every value is the empty
    string: the leaderboard projection drops it and [fetchConfigData]
    ignores it. *)
Theorem blank_line_ignored (headers : list string) (line : string)
  (c : config) :
  (forall v, In v (scan line [] "" false) -> v = Str "") ->
  let row := parse_line headers line in
  (forall k v, In (k, v) row -> v = Str "")
  /\ keep row = false
  /\ update_config c row = c.
Proof.
  intros Hblank row. subst row.
  assert (E : forall k v,
             In (k, v) (parse_line headers line) -> v = Str "").
  { intros k v H. unfold parse_line in H.
    apply In_fill in H as [[] | (j & _ & ->)].
    unfold cell_value, logical_or, at_index.
    destruct (nth_error (scan line [] "" false) j) as [x |] eqn:N.
    - rewrite (nth_error_nth _ _ _ N).
      apply nth_error_In, Hblank in N. now subst x.
    - apply nth_error_None in N. now rewrite nth_overflow. }
  assert (G : forall k, get (parse_line headers line) k = Undefined
                        \/ get (parse_line headers line) k = Str "").
  { intros k. destruct (get_In (parse_line headers line) k) as [H | H];
      [now left | right; now apply (E k)]. }
  assert (K : key_of (parse_line headers line) = Undefined
              \/ key_of (parse_line headers line) = Str "").
  { unfold key_of, at_index.
    destruct (values (parse_line headers line)) as [| v vs] eqn:V;
      [now left |].
    right. cbn [nth].
    destruct (In_values (parse_line headers line) v) as (k & Hk).
    - rewrite V. now left.
    - now apply (E k). }
  split; [exact E |]. split.
  - unfold keep, logical_and.
    destruct (G "Codename") as [-> | ->]; reflexivity.
  - apply update_config_ignored; destruct K as [-> | ->]; discriminate.
Qed.

Lemma blank_line_ignored_witness :
  (forall v, In v (scan " , ," [] "" false) -> v = Str "")
  /\ keep (parse_line ["Codename"; "Current Rank"; "Shamed"] " , ,") = false.
Proof.
  assert (H : forall v, In v (scan " , ," [] "" false) -> v = Str "").
  { assert (E : scan " , ," [] "" false = [Str ""; Str ""; Str ""])
      by (vm_compute; reflexivity).
    rewrite E. intros v [<- | [<- | [<- | []]]]; reflexivity. }
  split; [exact H |].
  exact (proj1 (proj2 (blank_line_ignored
                         ["Codename"; "Current Rank"; "Shamed"] " , ,"
                         initial_CONFIG H))).
Defined.

End RecordContents.

(** ** Movement and rank decorations *)

Section Decorations.

Lemma getMovement_NaN_l (previousRank : number) :
  getMovement NaN previousRank = no_movement.
Proof. now destruct previousRank. Qed.

Lemma getMovement_NaN_r (currentRank : number) :
  getMovement currentRank NaN = no_movement.
Proof. now destruct currentRank. Qed.

Lemma getMovement_diag (rank : number) :
  getMovement rank rank = no_movement.
Proof.
  destruct rank as [| z]; [reflexivity |]. apply getMovement_same.
Qed.

(** X11.  A contestant whose record has no usable Previous Rank (absent,
    empty, not a number, or zero), or whose Current Rank is not a number,
    is displayed as not having moved: [getMovement] applied to its two
    ranks gives the dash and the class [movement-same].  More generally
    [getMovement] never shows [NaN]: with a rank that is [NaN] on either
    side it gives the dash. *)
Theorem no_previous_rank_no_movement (row : object) :
  let c := project row in
  (parseInt (get row "Previous Rank") = NaN
   \/ parseInt (get row "Previous Rank") = Int 0
   \/ parseInt (get row "Current Rank") = NaN ->
   getMovement (currentRank c) (previousRank c) = no_movement)
  /\ (forall r, getMovement NaN r = no_movement
                /\ getMovement r NaN = no_movement).
Proof.
  cbv zeta. split.
  - cbn [project currentRank previousRank]. rewrite or_number_spec.
    intros [-> | [-> | ->]].
    + apply getMovement_diag.
    + apply getMovement_diag.
    + apply getMovement_NaN_l.
  - intros r. split; [apply getMovement_NaN_l | apply getMovement_NaN_r].
Qed.

Lemma no_previous_rank_no_movement_witness :
  let row := [("Codename", Str "ace"); ("Current Rank", Str "4")] in
  (parseInt (get row "Previous Rank") = NaN
   \/ parseInt (get row "Previous Rank") = Int 0
   \/ parseInt (get row "Current Rank") = NaN)
  /\ getMovement (currentRank (project row)) (previousRank (project row))
     = no_movement.
Proof.
  cbv zeta.
  set (row := [("Codename", Str "ace"); ("Current Rank", Str "4")]).
  assert (H : parseInt (get row "Previous Rank") = NaN
              \/ parseInt (get row "Previous Rank") = Int 0
              \/ parseInt (get row "Current Rank") = NaN)
    by (left; vm_compute; reflexivity).
  split; [exact H |].
  exact (proj1 (no_previous_rank_no_movement row) H).
Defined.










End Decorations.

(** ** More on the request addresses *)

Section AddressContents.

Lemma occurs_encodeURIComponent (c : ascii) (s : string) :
  occurs c (encodeURIComponent s) = true ->
  unreserved c = true \/ c = "%"%char.
Proof.
  induction s as [| a s IH]; cbn [encodeURIComponent occurs];
    [discriminate |].
  destruct (unreserved a) eqn:U; cbn [occurs].
  - intros H. apply orb_true_iff in H as [H | H]; [| now apply IH].
    apply Ascii.eqb_eq in H. subst c. now left.
  - intros H.
    apply orb_true_iff in H as [H | H];
      [apply Ascii.eqb_eq in H; now right |].
    apply orb_true_iff in H as [H | H];
      [apply Ascii.eqb_eq in H; subst c; left |].
    { assert (D : forall n, (n < 16)%nat -> unreserved (hex_digit n) = true).
      { intros n Hn.
        do 16 (destruct n as [| n]; [vm_compute; reflexivity |]). lia. }
      apply D. apply Nat.Div0.div_lt_upper_bound.
      pose proof (nat_ascii_bounded a). lia. }
    apply orb_true_iff in H as [H | H];
      [apply Ascii.eqb_eq in H; subst c; left | now apply IH].
    assert (D : forall n, (n < 16)%nat -> unreserved (hex_digit n) = true).
    { intros n Hn.
      do 16 (destruct n as [| n]; [vm_compute; reflexivity |]). lia. }
    apply D. apply Nat.mod_upper_bound. lia.
Qed.

Lemma address_stem_value :
  leaderboard_prefix = address_stem ++ "0%26_%3D"
  /\ config_prefix = address_stem ++ "136070622%26_%3D".
Proof. split; vm_compute; reflexivity. Qed.

(** X13.  In each request address, what follows the proxy prefix is made of
    unreserved characters and percent escapes only: it contains no
    ampersand, equals sign, question mark, hash or slash, so the whole
    target address reaches the proxy as the value of its one parameter.
    The leaderboard and the configuration are never fetched from the same
    address, whenever the page was loaded. *)
Theorem proxied_address (t t' : Z) :
  (exists target,
     LEADERBOARD_CSV_URL t = CORS_PROXY ++ encodeURIComponent target
     /\ forall c, In c ["&"; "="; "?"; "#"; "/"; ":"; " "]%char ->
                  occurs c (encodeURIComponent target) = false)
  /\ (exists target,
        CONFIG_CSV_URL t = CORS_PROXY ++ encodeURIComponent target
        /\ forall c, In c ["&"; "="; "?"; "#"; "/"; ":"; " "]%char ->
                     occurs c (encodeURIComponent target) = false)
  /\ LEADERBOARD_CSV_URL t <> CONFIG_CSV_URL t'.
Proof.
  assert (R : forall target c,
             In c ["&"; "="; "?"; "#"; "/"; ":"; " "]%char ->
             occurs c (encodeURIComponent target) = false).
  { intros target c Hc.
    destruct (occurs c (encodeURIComponent target)) eqn:E; [| reflexivity].
    apply occurs_encodeURIComponent in E.
    cbn [In] in Hc.
    destruct Hc as [<- | [<- | [<- | [<- | [<- | [<- | [<- | []]]]]]]];
      destruct E as [E | E]; vm_compute in E; discriminate. }
  split; [| split].
  - eexists. split; [reflexivity | apply R].
  - eexists. split; [reflexivity | apply R].
  - rewrite LEADERBOARD_CSV_URL_shape, CONFIG_CSV_URL_shape.
    destruct address_stem_value as [-> ->].
    rewrite !append_assoc. intros H. apply append_cancel_l in H.
    discriminate H.
Qed.

End AddressContents.

(** ** The installed order, whatever the sorting algorithm *)

Section StableOrder.

(** X14.  After a successful refresh in which the Current Rank of every
    kept record parses as an integer, the installed collection is the only
    arrangement of the projected records that is non-decreasing in
    [currentRank] and keeps, rank by rank, the order of the records: any
    stable sort yields it. *)
Theorem refresh_installs_the_stable_order (t : Z) (w : world)
  (body : string) (l : list contestant) :
  network w (LEADERBOARD_CSV_URL t) = Body body ->
  Forall (fun row => parseInt (get row "Current Rank") <> NaN)
    (filter keep (parseCSV body)) ->
  Forall numeric l ->
  StronglySorted rank_le l ->
  (forall r, filter (has_rank r) l
             = filter (has_rank r) (map project (filter keep (parseCSV body))))
  ->
  l = CONTESTANTS (snd (fetchLeaderboardData t w)).
Proof.
  intros Hnet Hnum Nl Sl Hl.
  destruct (fetchLeaderboardData_success t w body Hnet) as [_ ->].
  apply sort_characterised; auto.
  apply Forall_map. exact Hnum.
Qed.

Lemma refresh_installs_the_stable_order_witness :
  let w := fresh_world 0 (serving tied_sheet) in
  network w (LEADERBOARD_CSV_URL 0) = Body tied_sheet
  /\ Forall numeric tied_order
  /\ StronglySorted rank_le tied_order
  /\ tied_order = CONTESTANTS (snd (fetchLeaderboardData 0 w)).
Proof.
  cbv zeta.
  assert (H1 : network (fresh_world 0 (serving tied_sheet))
                 (LEADERBOARD_CSV_URL 0) = Body tied_sheet) by reflexivity.
  assert (H2 : Forall (fun row => parseInt (get row "Current Rank") <> NaN)
                 (filter keep (parseCSV tied_sheet)))
    by (vm_compute; repeat constructor; discriminate).
  assert (H3 : Forall numeric tied_order)
    by (repeat constructor; discriminate).
  assert (H4 : StronglySorted rank_le tied_order)
    by (repeat constructor).
  assert (E : map project (filter keep (parseCSV tied_sheet))
              = [ {| codename := Str "ann"; currentRank := Int 2;
                     previousRank := Int 2; shamed := false |};
                  {| codename := Str "bob"; currentRank := Int 1;
                     previousRank := Int 1; shamed := false |};
                  {| codename := Str "cyd"; currentRank := Int 2;
                     previousRank := Int 2; shamed := false |} ])
    by (vm_compute; reflexivity).
  assert (H5 : forall r,
             filter (has_rank r) tied_order
             = filter (has_rank r)
                 (map project (filter keep (parseCSV tied_sheet)))).
  { intros r. rewrite E. unfold tied_order, has_rank.
    cbn [filter currentRank].
    destruct r as [| z]; cbn [number_eqb]; [reflexivity |].
    destruct (Z.eqb_spec 1 z), (Z.eqb_spec 2 z); try reflexivity. lia. }
  split; [exact H1 |]. split; [exact H3 |]. split; [exact H4 |].
  exact (refresh_installs_the_stable_order 0 _ tied_sheet tied_order
           H1 H2 H3 H4 H5).
Defined.

End StableOrder.

(** ** Rendering the leaderboard *)

Lemma updated_same (id : string) (f : element -> element) (doc : document) :
  updated id f doc id = option_map f (doc id).
Proof. unfold updated. now rewrite String.eqb_refl. Qed.

Lemma updated_other (id id' : string) (f : element -> element)
  (doc : document) :
  id' <> id -> updated id f doc id' = doc id'.
Proof. intros H. unfold updated. apply String.eqb_neq in H. now rewrite H. Qed.

(** Reads an element of a document built by [updated]. *)
Ltac lookup :=
  repeat (rewrite updated_same
          || rewrite updated_other by discriminate).

Section Rendering.

Lemma bind_getElementById {B} (id : string)
  (k : option string -> Dom B) (doc : document) :
  dom_bind (getElementById id) k doc
  = k (match doc id with Some _ => Some id | None => None end) doc.
Proof. reflexivity. Qed.

Lemma bind_set_innerHTML {B} (id html : string) (k : unit -> Dom B)
  (doc : document) :
  dom_bind (set_innerHTML (Some id) html) k doc
  = k tt (updated id (with_markup html) doc).
Proof. reflexivity. Qed.

Lemma bind_set_style_display {B} (id d : string) (k : unit -> Dom B)
  (doc : document) :
  dom_bind (set_style_display (Some id) d) k doc
  = k tt (updated id (with_display d) doc).
Proof. reflexivity. Qed.

Lemma bind_set_textContent {B} (id : string) (v : value)
  (k : unit -> Dom B) (doc : document) :
  dom_bind (set_textContent (Some id) v) k doc
  = k tt (updated id (with_text (ToString v)) doc).
Proof. reflexivity. Qed.

Lemma bind_classList_add {B} (id c : string) (k : unit -> Dom B)
  (doc : document) :
  dom_bind (classList_add (Some id) c) k doc
  = k tt (updated id (with_class c) doc).
Proof. reflexivity. Qed.

(** [renderLeaderboard] case by case: whether the collection is empty and
    which of the three elements the document has. *)
Lemma renderLeaderboard_run (w : world) (doc : document) :
  renderLeaderboard w doc
  = match doc "leaderboard" with
    | None => (Throw "TypeError: null is not an object", doc)
    | Some _ =>
        if (List.length (CONTESTANTS w) =? 0)%nat then
          (Normal tt, updated "leaderboard" (with_markup loading_html) doc)
        else
          let doc1 :=
            updated "leaderboard"
              (with_markup (main_markup (CONTESTANTS w))) doc in
          match doc "shame-section" with
          | None => (Throw "TypeError: null is not an object", doc1)
          | Some _ =>
              let doc2 :=
                updated "shame-section" (with_display "block") doc1 in
              match doc "shame-list" with
              | None => (Throw "TypeError: null is not an object", doc2)
              | Some _ =>
                  (Normal tt,
                   updated "shame-list"
                     (with_markup (shame_markup (CONTESTANTS w))) doc2)
              end
          end
    end.
Proof.
  unfold renderLeaderboard. rewrite bind_getElementById.
  destruct (doc "leaderboard") as [e |] eqn:E1.
  - destruct (List.length (CONTESTANTS w) =? 0)%nat; [reflexivity |].
    cbv zeta. rewrite bind_set_innerHTML, !bind_getElementById.
    rewrite !updated_other by discriminate.
    fold (main_markup (CONTESTANTS w)).
    destruct (doc "shame-section") as [e3 |] eqn:E3;
      destruct (doc "shame-list") as [e2 |] eqn:E2;
      try reflexivity.
    + rewrite bind_set_style_display. unfold shame_markup.
      destruct (0 <? _)%nat; reflexivity.
    + rewrite bind_set_style_display.
      destruct (0 <? _)%nat; reflexivity.
  - destruct (List.length (CONTESTANTS w) =? 0)%nat; reflexivity.
Qed.

Lemma auto_refresh_run (t : Z) (w : world) (doc : document) :
  auto_refresh t w doc
  = (fst (renderLeaderboard (snd (fetchLeaderboardData t w)) doc),
     (snd (fetchLeaderboardData t w),
      snd (renderLeaderboard (snd (fetchLeaderboardData t w)) doc))).
Proof.
  unfold auto_refresh.
  destruct (fetchLeaderboardData_returns t w) as [l Hl].
  destruct (fetchLeaderboardData t w) as [r w']. cbn in Hl. subst r.
  cbn [snd]. now destruct (renderLeaderboard w' doc).
Qed.

Lemma renderLeaderboard_again (w w' : world) (doc : document) :
  CONTESTANTS w' = CONTESTANTS w ->
  fst (renderLeaderboard w' (snd (renderLeaderboard w doc)))
  = fst (renderLeaderboard w doc)
  /\ same_document (snd (renderLeaderboard w' (snd (renderLeaderboard w doc))))
       (snd (renderLeaderboard w doc)).
Proof.
  intros H. rewrite (renderLeaderboard_run w doc).
  destruct (doc "leaderboard") as [e1 |] eqn:E1.
  2:{ rewrite renderLeaderboard_run. cbn [snd]. rewrite E1.
      split; [reflexivity | intros id; reflexivity]. }
  destruct (List.length (CONTESTANTS w) =? 0)%nat eqn:L.
  - rewrite renderLeaderboard_run, H, L. cbn [snd fst]. lookup.
    rewrite E1. cbn [option_map]. split; [reflexivity |].
    intros id. unfold updated. cbn [snd]. cbv beta.
    destruct (id =? "leaderboard")%string; [| reflexivity].
    now destruct (doc id).
  - cbv zeta.
    destruct (doc "shame-section") as [e3 |] eqn:E3;
      [destruct (doc "shame-list") as [e2 |] eqn:E2 |];
      rewrite renderLeaderboard_run, H, L; cbn [snd fst]; cbv zeta; lookup;
      rewrite ?E1, ?E2, ?E3; cbn [option_map];
      (split; [reflexivity |]);
      intros id; unfold updated; cbn [snd]; cbv beta;
      destruct (id =? "shame-list")%string,
               (id =? "shame-section")%string,
               (id =? "leaderboard")%string;
      try reflexivity; now destruct (doc id).
Qed.

(** X16.  [renderLeaderboard] cannot tell a collection that was loaded empty
    from one that was never loaded: when a refresh succeeds but keeps no
    record (an empty or header-only sheet, or records without codename or
    rank), the refresh callback leaves the main list showing the loading
    placeholder, and touches no other element, so that the shame list keeps
    whatever it showed. *)
Theorem loaded_empty_shows_loading (t : Z) (w : world) (body : string)
  (doc : document) (e : element) :
  network w (LEADERBOARD_CSV_URL t) = Body body ->
  filter keep (parseCSV body) = [] ->
  doc "leaderboard" = Some e ->
  fst (auto_refresh t w doc) = Normal tt
  /\ CONTESTANTS (fst (snd (auto_refresh t w doc))) = []
  /\ snd (snd (auto_refresh t w doc)) "leaderboard"
     = Some (with_markup loading_html e)
  /\ forall id, id <> "leaderboard" ->
                snd (snd (auto_refresh t w doc)) id = doc id.
Proof.
  intros Hnet Hkeep He. rewrite auto_refresh_run. cbn [fst snd].
  destruct (fetchLeaderboardData_success t w body Hnet) as [_ Hc].
  assert (E : CONTESTANTS (snd (fetchLeaderboardData t w)) = []).
  { rewrite Hc. unfold leaderboard. now rewrite Hkeep. }
  rewrite renderLeaderboard_run, He, E. cbn [List.length Nat.eqb fst snd].
  split; [reflexivity |]. split; [reflexivity |]. split.
  - now rewrite updated_same, He.
  - intros id Hid. now apply updated_other.
Qed.

Lemma loaded_empty_shows_loading_witness :
  let w := fresh_world 0 (serving nameless_sheet) in
  network w (LEADERBOARD_CSV_URL 0) = Body nameless_sheet
  /\ filter keep (parseCSV nameless_sheet) = []
  /\ index_page "leaderboard" = Some blank_element
  /\ snd (snd (auto_refresh 0 w index_page)) "leaderboard"
     = Some (with_markup loading_html blank_element).
Proof.
  cbv zeta.
  assert (H1 : network (fresh_world 0 (serving nameless_sheet))
                 (LEADERBOARD_CSV_URL 0) = Body nameless_sheet)
    by reflexivity.
  assert (H2 : filter keep (parseCSV nameless_sheet) = [])
    by (vm_compute; reflexivity).
  assert (H3 : index_page "leaderboard" = Some blank_element)
    by (vm_compute; reflexivity).
  split; [exact H1 |]. split; [exact H2 |]. split; [exact H3 |].
  exact (proj1 (proj2 (proj2 (loaded_empty_shows_loading 0 _ nameless_sheet
                                index_page blank_element H1 H2 H3)))).
Defined.

(** X17.  Rendering is idempotent and depends on the collection only:
    rendering again, for the same collection, completes the same way and
    leaves every element of the document as the first rendering left it,
    whether the rendering succeeded or stopped at a missing element. *)
Theorem rendering_is_idempotent (w w' : world) (doc : document) :
  CONTESTANTS w' = CONTESTANTS w ->
  fst (renderLeaderboard w' (snd (renderLeaderboard w doc)))
  = fst (renderLeaderboard w doc)
  /\ forall id,
       snd (renderLeaderboard w' (snd (renderLeaderboard w doc))) id
       = snd (renderLeaderboard w doc) id.
Proof.
  intros H.
  destruct (renderLeaderboard_again w w' doc H) as [Hc Hd].
  split; [exact Hc |].
  intros id. apply Hd.
Qed.

Lemma rendering_is_idempotent_witness :
  let w := snd (fetchLeaderboardData 0 (fresh_world 0 (serving tied_sheet))) in
  CONTESTANTS w = CONTESTANTS w
  /\ fst (renderLeaderboard w (snd (renderLeaderboard w index_page)))
     = fst (renderLeaderboard w index_page).
Proof.
  cbv zeta.
  assert (H : CONTESTANTS
                (snd (fetchLeaderboardData 0
                        (fresh_world 0 (serving tied_sheet))))
              = CONTESTANTS
                  (snd (fetchLeaderboardData 0
                          (fresh_world 0 (serving tied_sheet)))))
    by reflexivity.
  split; [exact H |].
  exact (proj1 (rendering_is_idempotent _ _ index_page H)).
Defined.

(** X18.  A failed refresh leaves the display as it was: when the refresh
    callback runs against a failing network on a page already rendered, the
    collection is unchanged and every element of the document is as
    before. *)
Theorem failed_refresh_keeps_display (t : Z) (w : world) (doc : document) :
  failing (network w (LEADERBOARD_CSV_URL t)) ->
  let rendered := snd (renderLeaderboard w doc) in
  fst (auto_refresh t w rendered) = fst (renderLeaderboard w doc)
  /\ CONTESTANTS (fst (snd (auto_refresh t w rendered))) = CONTESTANTS w
  /\ forall id, snd (snd (auto_refresh t w rendered)) id = rendered id.
Proof.
  intros Hfail rendered. subst rendered. rewrite auto_refresh_run.
  cbn [fst snd].
  assert (E : CONTESTANTS (snd (fetchLeaderboardData t w)) = CONTESTANTS w).
  { rewrite CONTESTANTS_fetchLeaderboardData.
    destruct Hfail as [-> | ->]; reflexivity. }
  destruct (renderLeaderboard_again w (snd (fetchLeaderboardData t w)) doc E)
    as [H1 H2].
  split; [exact H1 |]. split; [exact E | exact H2].
Qed.

Lemma failed_refresh_keeps_display_witness :
  let w := later 300000 offline
             (snd (fetchLeaderboardData 0
                     (fresh_world 0 (serving tied_sheet)))) in
  failing (network w (LEADERBOARD_CSV_URL 0))
  /\ CONTESTANTS
       (fst (snd (auto_refresh 0 w (snd (renderLeaderboard w index_page)))))
     = CONTESTANTS w.
Proof.
  cbv zeta.
  assert (H : failing
                (network
                   (later 300000 offline
                      (snd (fetchLeaderboardData 0
                              (fresh_world 0 (serving tied_sheet)))))
                   (LEADERBOARD_CSV_URL 0))) by (left; reflexivity).
  split; [exact H |].
  exact (proj1 (proj2 (failed_refresh_keeps_display 0 _ index_page H))).
Defined.

(** X19.  [renderLeaderboard] does not guard its lookups.  Without the
    [leaderboard] element it throws and changes nothing.  With it but
    without the [shame-section] element, for a non-empty collection, it
    throws after the main list was rewritten, and the shame list is left as
    it was. *)
Theorem rendering_without_elements (w : world) (doc : document) :
  (doc "leaderboard" = None ->
   exists error, renderLeaderboard w doc = (Throw error, doc))
  /\ (forall e,
        doc "leaderboard" = Some e ->
        CONTESTANTS w <> [] ->
        doc "shame-section" = None ->
        (exists error, fst (renderLeaderboard w doc) = Throw error)
        /\ snd (renderLeaderboard w doc) "leaderboard"
           = Some (with_markup (main_markup (CONTESTANTS w)) e)
        /\ snd (renderLeaderboard w doc) "shame-list" = doc "shame-list").
Proof.
  split.
  - intros H. rewrite renderLeaderboard_run, H. now eexists.
  - intros e He Hne Hs. rewrite renderLeaderboard_run, He, Hs.
    destruct (CONTESTANTS w) as [| c l] eqn:E; [congruence |].
    cbn [List.length Nat.eqb fst snd]. cbv zeta. cbn [fst snd].
    split; [now eexists |]. split.
    + now rewrite updated_same, He.
    + now rewrite updated_other by discriminate.
Qed.

Lemma rendering_without_elements_witness :
  page_of ["days"] "leaderboard" = None
  /\ exists error,
       renderLeaderboard (fresh_world 0 offline) (page_of ["days"])
       = (Throw error, page_of ["days"]).
Proof.
  assert (H : page_of ["days"] "leaderboard" = None)
    by (vm_compute; reflexivity).
  split; [exact H |].
  exact (proj1 (rendering_without_elements (fresh_world 0 offline)
                  (page_of ["days"])) H).
Defined.

End Rendering.

(** ** The countdown *)

Section CountdownProperties.

Variable Date_parse : string -> number.

Lemma updateCountdown_run (w : world) (doc : document)
  (e1 e2 e3 e4 : element) :
  doc "days" = Some e1 -> doc "hours" = Some e2 ->
  doc "minutes" = Some e3 -> doc "seconds" = Some e4 ->
  let distance :=
    subtract (Date_getTime Date_parse (deadline (CONFIG w)))
      (Int (Date_now w)) in
  let days := floor_quotient distance (1000 * 60 * 60 * 24) in
  let hours :=
    floor_quotient (remainder distance (1000 * 60 * 60 * 24))
      (1000 * 60 * 60) in
  let minutes :=
    floor_quotient (remainder distance (1000 * 60 * 60)) (1000 * 60) in
  let seconds := floor_quotient (remainder distance (1000 * 60)) 1000 in
  let countdownEl :=
    match doc "countdown" with Some _ => Some "countdown" | None => None end
  in
  updateCountdown Date_parse w doc
  = if lt0 distance then
      (Normal tt,
       countdown_texts (Str "0") (Str "0") (Str "0") (Str "0") doc)
    else
      dom_bind
        (if less_than days (Int 7) then classList_add countdownEl "urgent"
         else dom_ret tt)
        (fun _ =>
           if less_than days (Int 3)
           then classList_add countdownEl "critical"
           else dom_ret tt)
        (countdown_texts (Num days) (Num hours) (Num minutes) (Num seconds)
           doc).
Proof.
  intros H1 H2 H3 H4. cbv zeta. unfold updateCountdown. cbv zeta.
  rewrite bind_getElementById.
  destruct (lt0 _).
  - rewrite bind_getElementById, H1, bind_set_textContent.
    rewrite bind_getElementById. lookup. rewrite H2, bind_set_textContent.
    rewrite bind_getElementById. lookup. rewrite H3, bind_set_textContent.
    rewrite bind_getElementById. lookup. rewrite H4. reflexivity.
  - rewrite bind_getElementById, H1, bind_set_textContent.
    rewrite bind_getElementById. lookup. rewrite H2, bind_set_textContent.
    rewrite bind_getElementById. lookup. rewrite H3, bind_set_textContent.
    rewrite bind_getElementById. lookup. rewrite H4, bind_set_textContent.
    reflexivity.
Qed.

Lemma shown_countdown_texts (d h m s : value) (doc : document)
  (e1 e2 e3 e4 : element) :
  doc "days" = Some e1 -> doc "hours" = Some e2 ->
  doc "minutes" = Some e3 -> doc "seconds" = Some e4 ->
  let doc' := countdown_texts d h m s doc in
  shown doc' "days" = Some (ToString d)
  /\ shown doc' "hours" = Some (ToString h)
  /\ shown doc' "minutes" = Some (ToString m)
  /\ shown doc' "seconds" = Some (ToString s)
  /\ doc' "countdown" = doc "countdown".
Proof.
  intros H1 H2 H3 H4. cbv zeta. unfold shown, countdown_texts.
  lookup. now rewrite H1, H2, H3, H4.
Qed.

Lemma In_with_class (c c' : string) (e : element) :
  In c' (classList (with_class c e)) <-> In c' (classList e) \/ c' = c.
Proof.
  unfold with_class. cbn [classList].
  destruct (existsb (String.eqb c) (classList e)) eqn:E.
  - apply existsb_exists in E as (x & Hx & Ex).
    apply String.eqb_eq in Ex. subst x. intuition congruence.
  - rewrite in_app_iff. cbn [In]. intuition congruence.
Qed.

(** The two class additions that end [updateCountdown], on a document that
    has the [countdown] element. *)
Lemma urgency_run (a b : bool) (doc : document) (e0 : element) :
  doc "countdown" = Some e0 ->
  let run :=
    dom_bind
      (if a then classList_add (Some "countdown") "urgent" else dom_ret tt)
      (fun _ =>
         if b then classList_add (Some "countdown") "critical"
         else dom_ret tt) doc in
  fst run = Normal tt
  /\ (forall id, id <> "countdown" -> snd run id = doc id)
  /\ snd run "countdown"
     = Some ((if b then with_class "critical" else fun e => e)
               ((if a then with_class "urgent" else fun e => e) e0)).
Proof.
  intros H0. cbv zeta.
  destruct a, b; cbn [dom_bind classList_add modify dom_ret fst snd];
    (split; [reflexivity |]); split;
    try (intros id Hid; apply String.eqb_neq in Hid; now rewrite ?Hid);
    rewrite ?String.eqb_refl, ?H0; reflexivity.
Qed.

Lemma countdown_arithmetic (x : Z) :
  0 <= x ->
  let D := x / (1000 * 60 * 60 * 24) in
  let H := Z.rem x (1000 * 60 * 60 * 24) / (1000 * 60 * 60) in
  let M := Z.rem x (1000 * 60 * 60) / (1000 * 60) in
  let S := Z.rem x (1000 * 60) / 1000 in
  x = D * 86400000 + H * 3600000 + M * 60000 + S * 1000 + x mod 1000
  /\ 0 <= D /\ 0 <= H < 24 /\ 0 <= M < 60 /\ 0 <= S < 60
  /\ 0 <= x mod 1000 < 1000
  /\ (D < 7 <-> x < 604800000) /\ (D < 3 <-> x < 259200000).
Proof.
  intros Hx. cbv zeta.
  change (1000 * 60 * 60 * 24) with 86400000.
  change (1000 * 60 * 60) with 3600000.
  change (1000 * 60) with 60000.
  rewrite !Z.rem_mod_nonneg by lia.
  Z.div_mod_to_equations. lia.
Qed.

(** X20.  While the deadline is not passed, the four figures
    [updateCountdown] displays are the days, hours, minutes and seconds of
    the time left: with the milliseconds it leaves out they add up to the
    distance between the deadline and now, the hours stay below 24, the
    minutes and the seconds below 60. *)
Theorem countdown_figures (w : world) (doc : document) (d : Z)
  (e0 e1 e2 e3 e4 : element) :
  doc "countdown" = Some e0 ->
  doc "days" = Some e1 -> doc "hours" = Some e2 ->
  doc "minutes" = Some e3 -> doc "seconds" = Some e4 ->
  Date_getTime Date_parse (deadline (CONFIG w)) = Int d ->
  Date_now w <= d ->
  exists D H M S r : Z,
    fst (updateCountdown Date_parse w doc) = Normal tt
    /\ shown (snd (updateCountdown Date_parse w doc)) "days"
       = Some (number_to_string (Int D))
    /\ shown (snd (updateCountdown Date_parse w doc)) "hours"
       = Some (number_to_string (Int H))
    /\ shown (snd (updateCountdown Date_parse w doc)) "minutes"
       = Some (number_to_string (Int M))
    /\ shown (snd (updateCountdown Date_parse w doc)) "seconds"
       = Some (number_to_string (Int S))
    /\ d - Date_now w
       = D * 86400000 + H * 3600000 + M * 60000 + S * 1000 + r
    /\ 0 <= D /\ 0 <= H < 24 /\ 0 <= M < 60 /\ 0 <= S < 60
    /\ 0 <= r < 1000.
Proof.
  intros H0 H1 H2 H3 H4 Hd Hnow.
  rewrite (updateCountdown_run w doc e1 e2 e3 e4 H1 H2 H3 H4). cbv zeta.
  rewrite Hd, H0. cbn [subtract lt0 remainder floor_quotient].
  destruct (Z.ltb_spec (d - Date_now w) 0) as [Hneg | _]; [lia |].
  destruct (shown_countdown_texts
              (Num (Int ((d - Date_now w) / (1000 * 60 * 60 * 24))))
              (Num (Int (Z.rem (d - Date_now w) (1000 * 60 * 60 * 24)
                         / (1000 * 60 * 60))))
              (Num (Int (Z.rem (d - Date_now w) (1000 * 60 * 60)
                         / (1000 * 60))))
              (Num (Int (Z.rem (d - Date_now w) (1000 * 60) / 1000)))
              doc e1 e2 e3 e4 H1 H2 H3 H4)
    as (S1 & S2 & S3 & S4 & S0).
  rewrite H0 in S0.
  match goal with
  | |- context [dom_bind (if ?a then _ else _) (fun _ => if ?b then _ else _)
                  ?docT] =>
      destruct (urgency_run a b docT e0 S0) as (R1 & R2 & _)
  end.
  assert (K : forall id, id <> "countdown" ->
                shown (snd (dom_bind
                  (if less_than
                        (Int ((d - Date_now w) / (1000 * 60 * 60 * 24)))
                        (Int 7)
                   then classList_add (Some "countdown") "urgent"
                   else dom_ret tt)
                  (fun _ =>
                     if less_than
                          (Int ((d - Date_now w) / (1000 * 60 * 60 * 24)))
                          (Int 3)
                     then classList_add (Some "countdown") "critical"
                     else dom_ret tt)
                  (countdown_texts
                     (Num (Int ((d - Date_now w) / (1000 * 60 * 60 * 24))))
                     (Num (Int (Z.rem (d - Date_now w) (1000 * 60 * 60 * 24)
                                / (1000 * 60 * 60))))
                     (Num (Int (Z.rem (d - Date_now w) (1000 * 60 * 60)
                                / (1000 * 60))))
                     (Num (Int (Z.rem (d - Date_now w) (1000 * 60) / 1000)))
                     doc))) id
                = shown (countdown_texts
                     (Num (Int ((d - Date_now w) / (1000 * 60 * 60 * 24))))
                     (Num (Int (Z.rem (d - Date_now w) (1000 * 60 * 60 * 24)
                                / (1000 * 60 * 60))))
                     (Num (Int (Z.rem (d - Date_now w) (1000 * 60 * 60)
                                / (1000 * 60))))
                     (Num (Int (Z.rem (d - Date_now w) (1000 * 60) / 1000)))
                     doc) id).
  { intros id Hid. unfold shown. now rewrite (R2 id Hid). }
  destruct (countdown_arithmetic (d - Date_now w) ltac:(lia))
    as (A1 & A2 & A3 & A4 & A5 & A6 & _).
  eexists _, _, _, _, _.
  split; [exact R1 |].
  rewrite !K by discriminate.
  split; [exact S1 |]. split; [exact S2 |]. split; [exact S3 |].
  split; [exact S4 |].
  split; [exact A1 |]. now repeat split.
Qed.

(** X21.  While the deadline is not passed, [updateCountdown] marks the
    countdown [urgent] when less than seven days are left and [critical]
    when less than three are, and never removes a class: a countdown once
    marked stays marked, and after the call one marked [critical] for lack
    of time is marked [urgent] too. *)
Theorem countdown_urgency (w : world) (doc : document) (d : Z)
  (e0 e1 e2 e3 e4 : element) :
  doc "countdown" = Some e0 ->
  doc "days" = Some e1 -> doc "hours" = Some e2 ->
  doc "minutes" = Some e3 -> doc "seconds" = Some e4 ->
  Date_getTime Date_parse (deadline (CONFIG w)) = Int d ->
  Date_now w <= d ->
  let after := classes (snd (updateCountdown Date_parse w doc)) "countdown" in
  (In "urgent" after
   <-> In "urgent" (classList e0) \/ d - Date_now w < 7 * 86400000)
  /\ (In "critical" after
      <-> In "critical" (classList e0) \/ d - Date_now w < 3 * 86400000)
  /\ (forall c, In c (classList e0) -> In c after)
  /\ (d - Date_now w < 3 * 86400000 -> In "urgent" after).
Proof.
  intros H0 H1 H2 H3 H4 Hd Hnow after. subst after.
  rewrite (updateCountdown_run w doc e1 e2 e3 e4 H1 H2 H3 H4). cbv zeta.
  rewrite Hd, H0. cbn [subtract lt0 remainder floor_quotient].
  destruct (Z.ltb_spec (d - Date_now w) 0) as [Hneg | _]; [lia |].
  destruct (shown_countdown_texts
              (Num (Int ((d - Date_now w) / (1000 * 60 * 60 * 24))))
              (Num (Int (Z.rem (d - Date_now w) (1000 * 60 * 60 * 24)
                         / (1000 * 60 * 60))))
              (Num (Int (Z.rem (d - Date_now w) (1000 * 60 * 60)
                         / (1000 * 60))))
              (Num (Int (Z.rem (d - Date_now w) (1000 * 60) / 1000)))
              doc e1 e2 e3 e4 H1 H2 H3 H4)
    as (_ & _ & _ & _ & S0).
  rewrite H0 in S0.
  match goal with
  | |- context [dom_bind (if ?a then _ else _) (fun _ => if ?b then _ else _)
                  ?docT] =>
      destruct (urgency_run a b docT e0 S0) as (_ & _ & R3)
  end.
  unfold classes. rewrite R3. clear R3 S0.
  destruct (countdown_arithmetic (d - Date_now w) ltac:(lia))
    as (_ & _ & _ & _ & _ & _ & A7 & A3).
  cbv zeta in A7, A3. cbn [less_than].
  destruct (Z.ltb_spec ((d - Date_now w) / (1000 * 60 * 60 * 24)) 7)
    as [L7 | L7];
    destruct (Z.ltb_spec ((d - Date_now w) / (1000 * 60 * 60 * 24)) 3)
      as [L3 | L3];
    cbv iota beta;
    (split; [| split; [| split]]);
    try (intros c Hc; rewrite ?In_with_class; tauto);
    rewrite ?In_with_class;
    intuition (try discriminate; try lia).
Qed.

(** X22.  Once the deadline is passed, and likewise while no deadline was
    ever loaded ([CONFIG.deadline] still [null], which [new Date] reads as
    the epoch), [updateCountdown] displays four zeros and returns before the
    urgency marks: the classes of the countdown are left as they were, and
    the [countdown] element itself is not needed. *)
Theorem countdown_expired (w : world) (doc : document)
  (e1 e2 e3 e4 : element) :
  doc "days" = Some e1 -> doc "hours" = Some e2 ->
  doc "minutes" = Some e3 -> doc "seconds" = Some e4 ->
  (deadline (CONFIG w) = Null /\ 0 < Date_now w)
  \/ (exists d, Date_getTime Date_parse (deadline (CONFIG w)) = Int d
                /\ d < Date_now w) ->
  let doc' := snd (updateCountdown Date_parse w doc) in
  fst (updateCountdown Date_parse w doc) = Normal tt
  /\ shown doc' "days" = Some "0" /\ shown doc' "hours" = Some "0"
  /\ shown doc' "minutes" = Some "0" /\ shown doc' "seconds" = Some "0"
  /\ doc' "countdown" = doc "countdown".
Proof.
  intros H1 H2 H3 H4 Hpast. cbv zeta.
  rewrite (updateCountdown_run w doc e1 e2 e3 e4 H1 H2 H3 H4). cbv zeta.
  assert (L : lt0 (subtract (Date_getTime Date_parse (deadline (CONFIG w)))
                     (Int (Date_now w))) = true).
  { destruct Hpast as [[-> Hn] | (d & -> & Hd)]; cbn [Date_getTime subtract lt0];
      apply Z.ltb_lt; lia. }
  rewrite L. cbn [fst snd]. split; [reflexivity |].
  exact (shown_countdown_texts (Str "0") (Str "0") (Str "0") (Str "0")
           doc e1 e2 e3 e4 H1 H2 H3 H4).
Qed.

(** X23.  When the deadline cannot be read as a date (an unparseable
    string, or [undefined] after a config record without a second column),
    [updateCountdown] displays [NaN] in the four figures and adds no
    class. *)
Theorem countdown_invalid_date (w : world) (doc : document)
  (e1 e2 e3 e4 : element) :
  doc "days" = Some e1 -> doc "hours" = Some e2 ->
  doc "minutes" = Some e3 -> doc "seconds" = Some e4 ->
  Date_getTime Date_parse (deadline (CONFIG w)) = NaN ->
  let doc' := snd (updateCountdown Date_parse w doc) in
  fst (updateCountdown Date_parse w doc) = Normal tt
  /\ shown doc' "days" = Some "NaN" /\ shown doc' "hours" = Some "NaN"
  /\ shown doc' "minutes" = Some "NaN" /\ shown doc' "seconds" = Some "NaN"
  /\ doc' "countdown" = doc "countdown".
Proof.
  intros H1 H2 H3 H4 Hd. cbv zeta.
  rewrite (updateCountdown_run w doc e1 e2 e3 e4 H1 H2 H3 H4). cbv zeta.
  rewrite Hd.
  cbn [subtract lt0 remainder floor_quotient less_than dom_bind dom_ret
       fst snd].
  split; [reflexivity |].
  exact (shown_countdown_texts (Num NaN) (Num NaN) (Num NaN) (Num NaN)
           doc e1 e2 e3 e4 H1 H2 H3 H4).
Qed.

End CountdownProperties.


Lemma countdown_figures_witness :
  index_page "countdown" = Some blank_element
  /\ Date_getTime numeric_dates (deadline (CONFIG hour_left_world))
     = Int 4601500
  /\ Date_now hour_left_world <= 4601500
  /\ exists D H M S r : Z,
       fst (updateCountdown numeric_dates hour_left_world index_page)
       = Normal tt
       /\ shown (snd (updateCountdown numeric_dates hour_left_world
                        index_page)) "days"
          = Some (number_to_string (Int D))
       /\ shown (snd (updateCountdown numeric_dates hour_left_world
                        index_page)) "hours"
          = Some (number_to_string (Int H))
       /\ shown (snd (updateCountdown numeric_dates hour_left_world
                        index_page)) "minutes"
          = Some (number_to_string (Int M))
       /\ shown (snd (updateCountdown numeric_dates hour_left_world
                        index_page)) "seconds"
          = Some (number_to_string (Int S))
       /\ 4601500 - Date_now hour_left_world
          = D * 86400000 + H * 3600000 + M * 60000 + S * 1000 + r
       /\ 0 <= D /\ 0 <= H < 24 /\ 0 <= M < 60 /\ 0 <= S < 60
       /\ 0 <= r < 1000.
Proof.
  assert (H0 : index_page "countdown" = Some blank_element)
    by (vm_compute; reflexivity).
  assert (H1 : index_page "days" = Some blank_element)
    by (vm_compute; reflexivity).
  assert (H2 : index_page "hours" = Some blank_element)
    by (vm_compute; reflexivity).
  assert (H3 : index_page "minutes" = Some blank_element)
    by (vm_compute; reflexivity).
  assert (H4 : index_page "seconds" = Some blank_element)
    by (vm_compute; reflexivity).
  assert (Hd : Date_getTime numeric_dates (deadline (CONFIG hour_left_world))
               = Int 4601500) by (vm_compute; reflexivity).
  assert (Hn : Date_now hour_left_world <= 4601500)
    by (vm_compute; discriminate).
  split; [exact H0 |]. split; [exact Hd |]. split; [exact Hn |].
  exact (countdown_figures numeric_dates hour_left_world index_page 4601500
           blank_element blank_element blank_element blank_element
           blank_element H0 H1 H2 H3 H4 Hd Hn).
Defined.

Lemma countdown_urgency_witness :
  index_page "countdown" = Some blank_element
  /\ Date_getTime numeric_dates (deadline (CONFIG hour_left_world))
     = Int 4601500
  /\ Date_now hour_left_world <= 4601500
  /\ In "urgent"
       (classes (snd (updateCountdown numeric_dates hour_left_world
                        index_page)) "countdown").
Proof.
  assert (H0 : index_page "countdown" = Some blank_element)
    by (vm_compute; reflexivity).
  assert (H1 : index_page "days" = Some blank_element)
    by (vm_compute; reflexivity).
  assert (H2 : index_page "hours" = Some blank_element)
    by (vm_compute; reflexivity).
  assert (H3 : index_page "minutes" = Some blank_element)
    by (vm_compute; reflexivity).
  assert (H4 : index_page "seconds" = Some blank_element)
    by (vm_compute; reflexivity).
  assert (Hd : Date_getTime numeric_dates (deadline (CONFIG hour_left_world))
               = Int 4601500) by (vm_compute; reflexivity).
  assert (Hn : Date_now hour_left_world <= 4601500)
    by (vm_compute; discriminate).
  assert (Hs : 4601500 - Date_now hour_left_world < 3 * 86400000)
    by (vm_compute; reflexivity).
  split; [exact H0 |]. split; [exact Hd |]. split; [exact Hn |].
  exact (proj2 (proj2 (proj2
           (countdown_urgency numeric_dates hour_left_world index_page
              4601500 blank_element blank_element blank_element
              blank_element blank_element H0 H1 H2 H3 H4 Hd Hn))) Hs).
Defined.

Lemma countdown_expired_witness :
  index_page "days" = Some blank_element
  /\ (deadline (CONFIG (fresh_world 1000 offline)) = Null
      /\ 0 < Date_now (fresh_world 1000 offline))
  /\ shown (snd (updateCountdown numeric_dates (fresh_world 1000 offline)
                   index_page)) "days"
     = Some "0".
Proof.
  assert (H1 : index_page "days" = Some blank_element)
    by (vm_compute; reflexivity).
  assert (H2 : index_page "hours" = Some blank_element)
    by (vm_compute; reflexivity).
  assert (H3 : index_page "minutes" = Some blank_element)
    by (vm_compute; reflexivity).
  assert (H4 : index_page "seconds" = Some blank_element)
    by (vm_compute; reflexivity).
  assert (Hp : deadline (CONFIG (fresh_world 1000 offline)) = Null
               /\ 0 < Date_now (fresh_world 1000 offline))
    by (split; vm_compute; reflexivity).
  split; [exact H1 |]. split; [exact Hp |].
  exact (proj1 (proj2
           (countdown_expired numeric_dates (fresh_world 1000 offline)
              index_page blank_element blank_element blank_element
              blank_element H1 H2 H3 H4 (or_introl Hp)))).
Defined.

Lemma countdown_invalid_date_witness :
  index_page "days" = Some blank_element
  /\ Date_getTime (fun _ => NaN) (deadline (CONFIG hour_left_world)) = NaN
  /\ shown (snd (updateCountdown (fun _ => NaN) hour_left_world index_page))
       "days"
     = Some "NaN".
Proof.
  assert (H1 : index_page "days" = Some blank_element)
    by (vm_compute; reflexivity).
  assert (H2 : index_page "hours" = Some blank_element)
    by (vm_compute; reflexivity).
  assert (H3 : index_page "minutes" = Some blank_element)
    by (vm_compute; reflexivity).
  assert (H4 : index_page "seconds" = Some blank_element)
    by (vm_compute; reflexivity).
  assert (Hd : Date_getTime (fun _ => NaN)
                 (deadline (CONFIG hour_left_world)) = NaN)
    by reflexivity.
  split; [exact H1 |]. split; [exact Hd |].
  exact (proj1 (proj2
           (countdown_invalid_date (fun _ => NaN) hour_left_world index_page
              blank_element blank_element blank_element blank_element
              H1 H2 H3 H4 Hd))).
Defined.

(** ** The Shamed sentinel *)

Section Sentinel.

(** X24.  A contestant is shamed exactly when the field of its line under
    the (last) [Shamed] header, once trimmed and stripped of double quotes
    by the scanner, is the four letters TRUE: any other field, in particular
    an absent or empty one and a lower-case true, gives [shamed = false]. *)
Theorem shamed_sentinel (headers : list string) (line : string) (j : nat) :
  nth_error headers j = Some "Shamed" ->
  ~ In "Shamed" (skipn (S j) headers) ->
  shamed (project (parse_line headers line)) = true
  <-> nth_error (scan line [] "" false) j = Some (Str "TRUE").
Proof.
  intros Hj Hlast. cbn [project shamed]. unfold parse_line.
  rewrite (get_fill_last headers 0 _ [] j "Shamed" Hj) by
    (discriminate || exact Hlast).
  cbn [Nat.add]. rewrite strict_eq_Str.
  unfold cell_value, logical_or, at_index.
  destruct (nth_error (scan line [] "" false) j) as [v |] eqn:N.
  - rewrite (nth_error_nth _ _ _ N).
    destruct (truthy v) eqn:T.
    + split; [now intros -> | now intros [= ->]].
    + split; [discriminate |]. intros [= ->]. discriminate T.
  - apply nth_error_None in N. rewrite nth_overflow by exact N.
    split; discriminate.
Qed.

End Sentinel.

Lemma shamed_sentinel_witness :
  nth_error ["Codename"; "Current Rank"; "Shamed"] 2 = Some "Shamed"
  /\ ~ In "Shamed" (skipn 3 ["Codename"; "Current Rank"; "Shamed"])
  /\ nth_error (scan "ace,1, TRUE " [] "" false) 2 = Some (Str "TRUE")
  /\ shamed (project (parse_line ["Codename"; "Current Rank"; "Shamed"]
                        "ace,1, TRUE "))
     = true.
Proof.
  assert (H1 : nth_error ["Codename"; "Current Rank"; "Shamed"] 2
               = Some "Shamed") by reflexivity.
  assert (H2 : ~ In "Shamed" (skipn 3 ["Codename"; "Current Rank"; "Shamed"]))
    by (simpl; tauto).
  assert (H3 : nth_error (scan "ace,1, TRUE " [] "" false) 2
               = Some (Str "TRUE")) by (vm_compute; reflexivity).
  split; [exact H1 |]. split; [exact H2 |]. split; [exact H3 |].
  exact (proj2 (shamed_sentinel ["Codename"; "Current Rank"; "Shamed"]
                  "ace,1, TRUE " 2 H1 H2) H3).
Defined.
